(** * Incident report form: submit workflow, load, data service and list view

    A shallow embedding of the client-side data layer of the incident
    reporting application:

    - [useIncidentReportForm] (the form hook): the query that fetches the
      report to edit, the [onSettled] callback stored with it, and
      [onSubmit];
    - [reportService.ts]: [createReport], [updateReport], [saveEvidence];
    - [ReportsList]: the list component.

    Objects sent to the backend are finite maps from property names to
    JavaScript values, so that two rows are equal exactly when they have the
    same properties with the same values.  Everything [onSubmit] does to the
    outside (console, toast, navigation, database and storage requests) is
    recorded, with the answer it received, in a chronological trace. *)

From stdpp Require Import gmap strings list fin_maps.
From Stdlib Require Import ZArith Ascii Permutation.

Local Open Scope string_scope.
Local Open Scope Z_scope.
Local Open Scope list_scope.

(** ** JavaScript values that occur in rows *)

Inductive JsVal :=
| JNull
| JBool (b : bool)
| JStr (s : string).

#[global] Instance JsVal_eq_dec : EqDecision JsVal.
Proof. solve_decision. Defined.

(** Truthiness of a string: only the empty string is falsy. *)
Definition truthy (s : string) : bool :=
  match s with
  | EmptyString => false
  | String _ _ => true
  end.

(** [x || d] where [x] is a string property that may be absent
    ([undefined] or [null]): a falsy left operand yields the right one. *)
Definition or_default (x : option string) (d : string) : string :=
  match x with
  | Some s => if truthy s then s else d
  | None => d
  end.

(** ** Dates

    A [Date] holds a time value: milliseconds since the epoch, or NaN for an
    invalid date. *)

Inductive JsDate :=
| ValidDate (ms : Z)
| InvalidDate.

Definition msPerDay : Z := 86400000.

(** Decimal rendering on exactly [n] digits (the low [n] digits of [z]). *)
Fixpoint pad_digits (n : nat) (z : Z) : string :=
  match n with
  | O => ""
  | S n' => pad_digits n' (z / 10) +:+ String (ascii_of_nat (48 + Z.to_nat (z mod 10))%nat) ""
  end.

(** Year, month and day of the proleptic Gregorian calendar for a day number
    counted from 1970-01-01. *)
Definition civil_from_days (days : Z) : Z * Z * Z :=
  let z := days + 719468 in
  let era := z / 146097 in
  let doe := z mod 146097 in
  let yoe := (doe - doe / 1460 + doe / 36524 - doe / 146096) / 365 in
  let doy := doe - (365 * yoe + yoe / 4 - yoe / 100) in
  let mp := (5 * doy + 2) / 153 in
  let d := doy - (153 * mp + 2) / 5 + 1 in
  let m := if mp <? 10 then mp + 3 else mp - 9 in
  let y := yoe + era * 400 in
  (if m <=? 2 then y + 1 else y, m, d).

(** The year of an ISO string: four digits inside 0..9999, otherwise a sign
    and six digits. *)
Definition iso_year (y : Z) : string :=
  if (0 <=? y) && (y <=? 9999) then pad_digits 4 y
  else (if y <? 0 then "-" else "+") +:+ pad_digits 6 (Z.abs y).

(** [Date.prototype.toISOString] on a valid time value:
    [YYYY-MM-DDTHH:mm:ss.sssZ], in UTC. *)
Definition toISOString (ms : Z) : string :=
  let '(y, m, d) := civil_from_days (ms / msPerDay) in
  let t := ms mod msPerDay in
  iso_year y +:+ "-" +:+ pad_digits 2 m +:+ "-" +:+ pad_digits 2 d +:+ "T"
  +:+ pad_digits 2 (t / 3600000) +:+ ":" +:+ pad_digits 2 (t / 60000 mod 60)
  +:+ ":" +:+ pad_digits 2 (t / 1000 mod 60) +:+ "." +:+ pad_digits 3 (t mod 1000)
  +:+ "Z".

(** [s.split(c)[0]]: the part of [s] before the first occurrence of [c]. *)
Fixpoint split_head (c : ascii) (s : string) : string :=
  match s with
  | EmptyString => ""
  | String a rest => if Ascii.eqb a c then "" else String a (split_head c rest)
  end.

(** [date.toISOString().split('T')[0]] *)
Definition iso_date (ms : Z) : string := split_head "T"%char (toISOString ms).

(** ** Records of the data model *)

(** A browser [File], as far as the code reads it. *)
Module File.
Record t := { name : string; type : string }.
End File.

(** The submitted form data, [ReportFormSchema]: what the schema resolver
    hands to [onSubmit].  The resolver rejects an invalid date, so the
    incident date is a time value; [files] is [undefined] or a file list. *)
Module ReportFormSchema.
Record t := {
    title : string;
    description : string;
    incident_date : Z;
    incident_time : string;
    location : string;
    main_category_id : string;
    categories : list string;
    files : option (list File.t);
  }.
End ReportFormSchema.

(** The field values held by the form, as given to [useForm]'s
    [defaultValues] and to [form.reset]: there a field may still be
    [undefined], which is what [files] is reset to. *)
Module FormValues.
Record t := {
    title : string;
    description : string;
    incident_date : option JsDate;
    incident_time : string;
    location : string;
    main_category_id : string;
    categories : list string;
    files : option (list File.t);
  }.
End FormValues.

(** One element of [report_category_assignments] in a fetched report. *)
Module Assignment.
Record t := { subcategory_id : string; main_category_id : string }.
End Assignment.

(** The record fetched for editing ([data: any]): a row of [reports] joined
    with its category assignments.  A column that is [null] or missing is
    [None]. *)
Module Fetched.
Record t := {
    title : option string;
    description : option string;
    incident_date : option string;
    incident_time : option string;
    location : option string;
    main_category_id : option string;
    report_category_assignments : option (list Assignment.t);
  }.
End Fetched.

(** The row returned by [insert(...).select().single()]; the code reads its
    [id] only. *)
Module ReportRow.
Record t := { id : string }.
End ReportRow.

Module User.
Record t := { id : string }.
End User.

Module Session.
Record t := { user : option User.t }.
End Session.

Module Toast.
Record t := { title : string; description : string; variant : option string }.
End Toast.

(** Error objects are identified by their message. *)
Definition JsError := string.

(** An object literal: property names with their values. *)
Definition obj (props : list (string * JsVal)) : gmap string JsVal := list_to_map props.

(** The argument object of the [update_report_with_categories] procedure. *)
Module RpcArgs.
Record t := {
    p_report_id : string;
    p_report_data : gmap string JsVal;
    p_categories : list (gmap string JsVal);
  }.
End RpcArgs.

(** ** Effects

    Each request is recorded together with the answer it got. *)

Inductive Event :=
| ConsoleLog (msg : string)
| ConsoleError (msg : string)
| EToast (t : Toast.t)
| ENavigate (path : string)
  (* supabase.from(table).select(..).eq("id", id).single() *)
| ESelectSingle (table : string) (id : string) (result : JsError + Fetched.t)
  (* supabase.rpc(fn, args) *)
| ERpc (fn : string) (args : RpcArgs.t) (error : option JsError)
  (* supabase.from(table).insert(row).select().single() *)
| EInsertSingle (table : string) (row : gmap string JsVal) (result : JsError + ReportRow.t)
  (* supabase.from(table).update(row).eq("id", id).select().single() *)
| EUpdateSingle (table : string) (row : gmap string JsVal) (id : string)
    (result : JsError + ReportRow.t)
  (* supabase.from(table).insert(rows) *)
| EInsert (table : string) (rows : list (gmap string JsVal)) (error : option JsError)
  (* supabase.storage.from(bucket).upload(path, file): the request is sent *)
| EUploadBegin (bucket : string) (path : string) (file : File.t)
  (* ... and its answer has arrived *)
| EUploadEnd (bucket : string) (path : string) (error : option JsError).

(** The collaborators.  Every answer of the backend may depend on the whole
    history so far; [next_settled] is the scheduler: among the uploads in
    flight it picks the one whose answer arrives next. *)
Record Env := {
  Date_now : Z;
  Date_parse : string -> JsDate;
  select_single : list Event -> string -> string -> JsError + Fetched.t;
  rpc_error : list Event -> string -> RpcArgs.t -> option JsError;
  insert_single : list Event -> string -> gmap string JsVal -> JsError + ReportRow.t;
  update_single : list Event -> string -> gmap string JsVal -> string -> JsError + ReportRow.t;
  insert_error : list Event -> string -> list (gmap string JsVal) -> option JsError;
  upload_error : list Event -> string -> string -> File.t -> option JsError;
  getPublicUrl : string -> string -> string;
  next_settled : list Event -> nat;
}.

(** The state a call runs in: the form's field values and the trace. *)
Record World := { form : FormValues.t; trace : list Event }.

Inductive Outcome (A : Type) :=
| Returned (a : A)
| Thrown (e : JsError).
Arguments Returned {A} a.
Arguments Thrown {A} e.

(** An asynchronous computation that may throw. *)
Definition M (A : Type) : Type := World -> Outcome A * World.

#[global] Instance M_ret : MRet M := fun A a w => (Returned a, w).
#[global] Instance M_bind : MBind M := fun A B k c w =>
  match c w with
  | (Returned a, w') => k a w'
  | (Thrown e, w') => (Thrown e, w')
  end.

Definition throw {A} (e : JsError) : M A := fun w => (Thrown e, w).

(** [try { body } catch (error) { handler }] *)
Definition try_catch {A} (body : M A) (handler : JsError -> M A) : M A := fun w =>
  match body w with
  | (Returned a, w') => (Returned a, w')
  | (Thrown e, w') => handler e w'
  end.

Definition emit (e : Event) : M unit := fun w =>
  (Returned tt, {| form := form w; trace := trace w ++ [e] |}).

Definition history : M (list Event) := fun w => (Returned (trace w), w).

(** [form.reset(values)] *)
Definition form_reset (values : FormValues.t) : M unit := fun w =>
  (Returned tt, {| form := values; trace := trace w |}).

Definition console_log (msg : string) : M unit := emit (ConsoleLog msg).
Definition console_error (msg : string) : M unit := emit (ConsoleError msg).
Definition toast (t : Toast.t) : M unit := emit (EToast t).
Definition navigate (path : string) : M unit := emit (ENavigate path).

(** ** The backend client ([supabase]) *)

Section Client.
Variable env : Env.

Definition supabase_select_single (table id : string) : M (JsError + Fetched.t) :=
  h ← history;
  let result := select_single env h table id in
  emit (ESelectSingle table id result);; mret result.

Definition supabase_rpc (fn : string) (args : RpcArgs.t) : M (option JsError) :=
  h ← history;
  let error := rpc_error env h fn args in
  emit (ERpc fn args error);; mret error.

Definition supabase_insert_single (table : string) (row : gmap string JsVal)
  : M (JsError + ReportRow.t) :=
  h ← history;
  let result := insert_single env h table row in
  emit (EInsertSingle table row result);; mret result.

Definition supabase_update_single (table : string) (row : gmap string JsVal) (id : string)
  : M (JsError + ReportRow.t) :=
  h ← history;
  let result := update_single env h table row id in
  emit (EUpdateSingle table row id result);; mret result.

Definition supabase_insert (table : string) (rows : list (gmap string JsVal))
  : M (option JsError) :=
  h ← history;
  let error := insert_error env h table rows in
  emit (EInsert table rows error);; mret error.

(** A truthy string property, read through optional values. *)
Definition present (x : option string) : option string :=
  match x with
  | Some s => if truthy s then Some s else None
  | None => None
  end.

(** ** The form hook, [useIncidentReportForm] *)

Section useIncidentReportForm.
(** [id] comes from the route parameters, [session] from the session hook. *)
Variable id : option string.
Variable session : option Session.t.

(** [defaultValues] of [useForm] *)
Definition defaultValues : FormValues.t :=
  {| FormValues.title := "";
     FormValues.description := "";
     FormValues.incident_date := Some (ValidDate (Date_now env));
     FormValues.incident_time := "";
     FormValues.location := "";
     FormValues.main_category_id := "";
     FormValues.categories := [];
     FormValues.files := None |}.

(** [queryFn] of the query that fetches the report to edit *)
Definition queryFn : M (option Fetched.t) :=
  match present id with
  | None => mret None
  | Some id =>
      console_log "Fetching report data for ID:";;
      r ← supabase_select_single "reports" id;
      match r with
      | inl error => console_error "Error fetching report:";; throw error
      | inr report => console_log "Fetched report data:";; mret (Some report)
      end
  end.

(** The values [onSettled] resets the form to. *)
Definition reset_values (data : Fetched.t) : FormValues.t :=
  {| FormValues.title := or_default (Fetched.title data) "";
     FormValues.description := or_default (Fetched.description data) "";
     FormValues.incident_date :=
       Some match present (Fetched.incident_date data) with
            | Some s => Date_parse env s
            | None => ValidDate (Date_now env)
            end;
     FormValues.incident_time := or_default (Fetched.incident_time data) "";
     FormValues.location := or_default (Fetched.location data) "";
     FormValues.main_category_id := or_default (Fetched.main_category_id data) "";
     FormValues.categories :=
       match Fetched.report_category_assignments data with
       | Some assignments => map Assignment.subcategory_id assignments
       | None => []
       end;
     FormValues.files := None |}.

(** The [onSettled] function stored under the query's [meta] *)
Definition onSettled (data : option Fetched.t) : M unit :=
  match data with
  | Some data => console_log "Setting form data:";; form_reset (reset_values data)
  | None => mret tt
  end.

(** Loading: the query runs only when [enabled] ([!!id]); it runs [queryFn]
    and keeps the data it settles with, of which the hook reads nothing but
    [isLoading].  An error thrown by [queryFn] is the outcome of the load.
    [onSettled] is not run: it is a property of the [meta] object, which the
    query only carries along, and the hook calls it nowhere. *)
Definition load : M unit :=
  match present id with
  | None => mret tt
  | Some _ => data ← queryFn; mret tt
  end.

(** [session?.user?.id] *)
Definition session_user_id : option string :=
  s ← session; u ← Session.user s; Some (User.id u).

(** [reportData] of [onSubmit] *)
Definition reportData (data : ReportFormSchema.t) (user_id : string) : gmap string JsVal :=
  obj [ ("title", JStr (ReportFormSchema.title data));
        ("description", JStr (ReportFormSchema.description data));
        ("incident_date", JStr (iso_date (ReportFormSchema.incident_date data)));
        ("incident_time", JStr (ReportFormSchema.incident_time data));
        ("location", JStr (ReportFormSchema.location data));
        ("main_category_id", JStr (ReportFormSchema.main_category_id data));
        ("user_id", JStr user_id) ].

(** An element of [p_categories] on the update path *)
Definition rpc_category (data : ReportFormSchema.t) (subcategoryId : string)
  : gmap string JsVal :=
  obj [ ("subcategory_id", JStr subcategoryId);
        ("main_category_id", JStr (ReportFormSchema.main_category_id data));
        ("is_primary", JBool false) ].

(** A row of [report_category_assignments] on the create path *)
Definition assignment_row (newReport : ReportRow.t) (data : ReportFormSchema.t)
    (subcategoryId : string) : gmap string JsVal :=
  obj [ ("report_id", JStr (ReportRow.id newReport));
        ("subcategory_id", JStr subcategoryId);
        ("main_category_id", JStr (ReportFormSchema.main_category_id data));
        ("is_primary", JBool false) ].

(** [`${newReport.id}/${file.name}`] *)
Definition upload_fileName (newReport : ReportRow.t) (file : File.t) : string :=
  ReportRow.id newReport +:+ "/" +:+ File.name file.

(** The value an upload promise resolves to *)
Definition evidence_row (newReport : ReportRow.t) (user_id : string) (file : File.t)
  : gmap string JsVal :=
  obj [ ("report_id", JStr (ReportRow.id newReport));
        ("file_url", JStr (getPublicUrl env "evidence" (upload_fileName newReport file)));
        ("file_type", JStr (File.type file));
        ("uploaded_by", JStr user_id) ].

(** The upload arrow function up to its first [await]: calling it sends the
    request. *)
Definition upload_start (newReport : ReportRow.t) (file : File.t) : M unit :=
  emit (EUploadBegin "evidence" (upload_fileName newReport file) file).

(** ... and its continuation, run when the answer has arrived. *)
Definition upload_resume (newReport : ReportRow.t) (user_id : string) (file : File.t)
  : M (gmap string JsVal) :=
  h ← history;
  let fileName := upload_fileName newReport file in
  let uploadError := upload_error env h "evidence" fileName file in
  emit (EUploadEnd "evidence" fileName uploadError);;
  match uploadError with
  | Some e => console_error "Error uploading file:";; throw e
  | None => mret (evidence_row newReport user_id file)
  end.

(** [await Promise.all(uploadPromises)]: the uploads in flight settle one at
    a time in the order the scheduler picks; each resumes its arrow function,
    whose result fills its slot of the result array.  The first rejection
    rejects the whole; the others stay in flight and are not waited for.
    [n] counts the answers still awaited and is the number of uploads in
    flight, [pending] lists them with their positions in the file list. *)
Fixpoint promise_all (n : nat) (resume : File.t -> M (gmap string JsVal))
    (pending : list (nat * File.t)) (slots : list (option (gmap string JsVal)))
  : M (list (option (gmap string JsVal))) :=
  match n, pending with
  | S n', _ :: _ =>
      h ← history;
      match pending !! (next_settled env h `mod` length pending)%nat with
      | Some (k, file) =>
          value ← resume file;
          promise_all n' resume
            (delete (next_settled env h `mod` length pending)%nat pending)
            (<[k := Some value]> slots)
      | None => mret slots
      end
  | _, _ => mret slots
  end.

(** Lines 155-178: start every upload, then await them all. *)
Definition upload_all (newReport : ReportRow.t) (user_id : string) (files : list File.t)
  : M (list (gmap string JsVal)) :=
  mapM (upload_start newReport) files;;
  slots ← promise_all (length files) (upload_resume newReport user_id)
             (imap (fun k file => (k, file)) files)
             (replicate (length files) None);
  mret (omap (fun slot => slot) slots).

Definition toast_not_logged_in : Toast.t :=
  {| Toast.title := "Error";
     Toast.description := "You must be logged in to submit a report";
     Toast.variant := Some "destructive" |}.

Definition toast_updated : Toast.t :=
  {| Toast.title := "Success";
     Toast.description := "Report updated successfully";
     Toast.variant := None |}.

Definition toast_created : Toast.t :=
  {| Toast.title := "Success";
     Toast.description := "Report created successfully";
     Toast.variant := None |}.

Definition toast_went_wrong : Toast.t :=
  {| Toast.title := "Error";
     Toast.description := "Something went wrong. Please try again.";
     Toast.variant := Some "destructive" |}.

(** The update branch of [onSubmit] (lines 103-122) *)
Definition update_path (id : string) (user_id : string) (data : ReportFormSchema.t)
  : M unit :=
  console_log "Updating report:";;
  rpcError ← supabase_rpc "update_report_with_categories"
    {| RpcArgs.p_report_id := id;
       RpcArgs.p_report_data := reportData data user_id;
       RpcArgs.p_categories := map (rpc_category data) (ReportFormSchema.categories data) |};
  match rpcError with
  | Some e => console_error "Error updating report:";; throw e
  | None => toast toast_updated
  end.

(** Lines 136-152 of the create branch: the category assignments *)
Definition insert_assignments (newReport : ReportRow.t) (data : ReportFormSchema.t)
  : M unit :=
  if (0 <? length (ReportFormSchema.categories data))%nat then
    categoryError ← supabase_insert "report_category_assignments"
      (map (assignment_row newReport data) (ReportFormSchema.categories data));
    match categoryError with
    | Some e => console_error "Error creating category assignments:";; throw e
    | None => mret tt
    end
  else mret tt.

(** Lines 154-188 of the create branch: the uploads and the evidence rows *)
Definition insert_evidence (newReport : ReportRow.t) (user_id : string)
    (data : ReportFormSchema.t) : M unit :=
  match ReportFormSchema.files data with
  | Some files =>
      if (0 <? length files)%nat then
        uploadedFiles ← upload_all newReport user_id files;
        evidenceError ← supabase_insert "evidence" uploadedFiles;
        match evidenceError with
        | Some e => console_error "Error saving evidence:";; throw e
        | None => mret tt
        end
      else mret tt
  | None => mret tt
  end.

(** The create branch of [onSubmit] (lines 124-193) *)
Definition create_path (user_id : string) (data : ReportFormSchema.t) : M unit :=
  console_log "Creating new report";;
  r ← supabase_insert_single "reports" (reportData data user_id);
  match r with
  | inl reportError => console_error "Error creating report:";; throw reportError
  | inr newReport =>
      insert_assignments newReport data;;
      insert_evidence newReport user_id data;;
      toast toast_created
  end.

Definition onSubmit (data : ReportFormSchema.t) : M unit :=
  try_catch
    (match present session_user_id with
     | None => toast toast_not_logged_in
     | Some user_id =>
         console_log "Submitting form data:";;
         match present id with
         | Some id => update_path id user_id data
         | None => create_path user_id data
         end;;
         navigate "/dashboard"
     end)
    (fun error =>
       console_error "Form submission error:";;
       toast toast_went_wrong).

End useIncidentReportForm.
End Client.

(** ** The report data service, [reportService.ts] *)

Module ReportData.
Record t := {
  title : string;
  description : string;
  category_id : string;
  incident_date : option string;
  incident_time : option string;
  location : option string;
  user_id : string;
}.
End ReportData.

(** Modelled from the spec: the [UploadedFile] interface of
    [utils/fileUpload], which [EvidenceData] extends, is not among the
    sources; an evidence record has a storage URL, a MIME type and an
    optional description. *)
Module EvidenceData.
Record t := {
  file_url : string;
  file_type : string;
  description : option string;
  report_id : string;
  uploaded_by : string;
}.
End EvidenceData.

(** A [string | null] property *)
Definition nullable (x : option string) : JsVal :=
  match x with
  | Some s => JStr s
  | None => JNull
  end.

(** The object [createReport] and [updateReport] pass on as it is. *)
Definition ReportData_obj (reportData : ReportData.t) : gmap string JsVal :=
  obj [ ("title", JStr (ReportData.title reportData));
        ("description", JStr (ReportData.description reportData));
        ("category_id", JStr (ReportData.category_id reportData));
        ("incident_date", nullable (ReportData.incident_date reportData));
        ("incident_time", nullable (ReportData.incident_time reportData));
        ("location", nullable (ReportData.location reportData));
        ("user_id", JStr (ReportData.user_id reportData)) ].

(** The row [saveEvidence] posts for one evidence record.  Its object
    literal always has the five properties; in the posted body a property
    whose value is [undefined] is left out, so [description] appears only
    when the record has one.  The list of columns that the client derives
    from the keys of the literal is not part of the row. *)
Definition evidence_obj (evidence : EvidenceData.t) : gmap string JsVal :=
  obj ([ ("file_url", JStr (EvidenceData.file_url evidence));
         ("file_type", JStr (EvidenceData.file_type evidence)) ]
       ++ match EvidenceData.description evidence with
          | Some d => [ ("description", JStr d) ]
          | None => []
          end
       ++ [ ("report_id", JStr (EvidenceData.report_id evidence));
            ("uploaded_by", JStr (EvidenceData.uploaded_by evidence)) ]).

Section reportService.
Variable env : Env.

Definition createReport (reportData : ReportData.t) : M ReportRow.t :=
  r ← supabase_insert_single env "reports" (ReportData_obj reportData);
  match r with
  | inl error => throw error
  | inr data => mret data
  end.

Definition updateReport (id : string) (reportData : ReportData.t) : M ReportRow.t :=
  r ← supabase_update_single env "reports" (ReportData_obj reportData) id;
  match r with
  | inl error => throw error
  | inr data => mret data
  end.

Definition saveEvidence (evidenceData : list EvidenceData.t) : M unit :=
  error ← supabase_insert env "evidence" (map evidence_obj evidenceData);
  match error with
  | Some error => throw error
  | None => mret tt
  end.

End reportService.

(** ** The list view, [ReportsList] *)

Module CaseCategories.
Record t := { name : string }.
End CaseCategories.

(** A report summary.  The code reads [case_categories] through [?.], so the
    object may be missing. *)
Module Report.
Record t := {
  id : string;
  title : string;
  status : string;
  incident_date : string;
  case_categories : option CaseCategories.t;
}.
End Report.

(** Rendered elements.  [onClick] is the path the handler navigates to. *)
#[warnings="-register-all"] Inductive VNode :=
| Text (s : string)
| Elem (tag : string) (key : option string) (className : string)
    (onClick : option string) (children : list VNode)
| Badge (variant : string) (children : list VNode).

(** The [variant] expression of the badge (lines 51-57) *)
Definition badge_variant (status : string) : string :=
  if String.eqb status "resolved" then "success"
  else if String.eqb status "in_progress" then "warning"
  else "default".

Section ReportsList.
(** [new Date(s)], and [format(date, "PPP")] of date-fns, which throws on an
    invalid date ([None]). *)
Variable Date_parse : string -> JsDate.
Variable format_PPP : JsDate -> option string.

(** The text of the date line (lines 45-47) *)
Definition date_line (report : Report.t) : option string :=
  if truthy (Report.incident_date report)
  then format_PPP (Date_parse (Report.incident_date report))
  else Some "No date specified".

(** One element of [reports.map(...)] (lines 33-62) *)
Definition report_item (report : Report.t) : option VNode :=
  date ← date_line report;
  Some (Elem "div" (Some (Report.id report))
    "p-4 border rounded-lg hover:bg-muted/50 cursor-pointer transition-colors"
    (Some ("/reports/" +:+ Report.id report))
    [ Elem "div" None "flex items-start justify-between" None
        [ Elem "div" None "space-y-1" None
            [ Elem "h3" None "font-medium" None [ Text (Report.title report) ];
              Elem "p" None "text-sm text-muted-foreground" None
                (Text "Category: " ::
                 match CaseCategories.name <$> Report.case_categories report with
                 | Some name => [ Text name ]
                 | None => []
                 end);
              Elem "p" None "text-sm text-muted-foreground" None [ Text date ] ];
          Badge (badge_variant (Report.status report)) [ Text (Report.status report) ] ] ]).

(** The placeholder rendered for an empty list (lines 23-27) *)
Definition no_reports_found : VNode :=
  Elem "p" None "text-center text-muted-foreground py-8" None [ Text "No reports found" ].

(** The component; [None] when rendering throws. *)
Definition ReportsList (reports : list Report.t) : option VNode :=
  if (length reports =? 0)%nat then Some no_reports_found
  else
    items ← mapM report_item reports;
    Some (Elem "div" None "space-y-4" None items).

End ReportsList.

(** The badges of a rendered tree, left to right: variant and label. *)
Fixpoint badges (node : VNode) : list (string * list VNode) :=
  match node with
  | Text _ => []
  | Elem _ _ _ _ children => flat_map badges children
  | Badge variant children => [ (variant, children) ]
  end.

(** ** Observations on traces *)

(** The events a call of [onSubmit] adds to the trace. *)
Definition submitted (env : Env) (id : option string) (session : option Session.t)
    (data : ReportFormSchema.t) (w : World) : list Event :=
  drop (length (trace w)) (trace (onSubmit env id session data w).2).

(** Requests that write to the backend. *)
Definition is_write (e : Event) : bool :=
  match e with
  | ERpc _ _ _ | EInsertSingle _ _ _ | EUpdateSingle _ _ _ _ | EInsert _ _ _
  | EUploadBegin _ _ _ | EUploadEnd _ _ _ => true
  | _ => false
  end.

(** A write request that was answered with an error. *)
Definition write_failed (e : Event) : bool :=
  match e with
  | ERpc _ _ (Some _) | EInsertSingle _ _ (inl _) | EUpdateSingle _ _ _ (inl _)
  | EInsert _ _ (Some _) | EUploadEnd _ _ (Some _) => true
  | _ => false
  end.

Definition is_upload (e : Event) : bool :=
  match e with
  | EUploadBegin _ _ _ | EUploadEnd _ _ _ => true
  | _ => false
  end.

(** Bulk inserts into [table]. *)
Definition inserts_into (table : string) (e : Event) : bool :=
  match e with
  | EInsert t _ _ => String.eqb t table
  | _ => false
  end.

(** The rows that the bulk inserts of a trace send to [table]. *)
Definition rows_inserted (table : string) (evs : list Event) : list (gmap string JsVal) :=
  flat_map (fun e => match e with
                     | EInsert t rows _ => if String.eqb t table then rows else []
                     | _ => []
                     end) evs.

(** No write of the trace was answered with an error. *)
Definition all_writes_ok (evs : list Event) : bool :=
  forallb (fun e => negb (write_failed e)) evs.

(** Single-row inserts into [reports]. *)
Definition is_report_insert (e : Event) : bool :=
  match e with
  | EInsertSingle t _ _ => String.eqb t "reports"
  | _ => false
  end.

Definition is_upload_begin (e : Event) : bool :=
  match e with
  | EUploadBegin _ _ _ => true
  | _ => false
  end.

(** The category-assignment records an event writes: the rows of an insert
    into [report_category_assignments], or the category list handed to the
    update procedure. *)
Definition assignment_records (e : Event) : list (gmap string JsVal) :=
  match e with
  | ERpc _ args _ => RpcArgs.p_categories args
  | EInsert t rows _ => if String.eqb t "report_category_assignments" then rows else []
  | _ => []
  end.

(** The events a computation adds to the trace. *)
Definition events_of {A} (c : M A) (w : World) : list Event :=
  drop (length (trace w)) (trace (c w).2).

(** The rows that single-row inserts of a trace send to [reports]. *)
Definition report_rows_inserted (evs : list Event) : list (gmap string JsVal) :=
  flat_map (fun e => match e with
                     | EInsertSingle t row _ => if String.eqb t "reports" then [row] else []
                     | _ => []
                     end) evs.

(** The [ReportData] that corresponds to a submitted form, for the
    comparison of the controller's insert with [createReport]: the same
    values, the form's main category being the report's category. *)
Definition ReportData_of_form (data : ReportFormSchema.t) (user_id : string)
  : ReportData.t :=
  {| ReportData.title := ReportFormSchema.title data;
     ReportData.description := ReportFormSchema.description data;
     ReportData.category_id := ReportFormSchema.main_category_id data;
     ReportData.incident_date := Some (iso_date (ReportFormSchema.incident_date data));
     ReportData.incident_time := Some (ReportFormSchema.incident_time data);
     ReportData.location := Some (ReportFormSchema.location data);
     ReportData.user_id := user_id |}.

(** The toasts shown, in order. *)
Definition toasts (evs : list Event) : list Toast.t :=
  omap (fun e => match e with EToast t => Some t | _ => None end) evs.

Definition is_navigate (e : Event) : bool :=
  match e with
  | ENavigate _ => true
  | _ => false
  end.

(** The files attached to a submission ([data.files], none when undefined). *)
Definition attached (data : ReportFormSchema.t) : list File.t :=
  default [] (ReportFormSchema.files data).

(** The world after the events [evs] have been added. *)
Definition extend (w : World) (evs : list Event) : World :=
  {| form := form w; trace := trace w ++ evs |}.

(** The events of one upload: the request, and a successful answer. *)
Definition upload_begin (newReport : ReportRow.t) (file : File.t) : Event :=
  EUploadBegin "evidence" (upload_fileName newReport file) file.

Definition end_ok (newReport : ReportRow.t) (p : nat * File.t) : Event :=
  EUploadEnd "evidence" (upload_fileName newReport p.2) None.

(** The result array of [Promise.all] after the promises [settled] have
    resolved, each filling the slot of its position. *)
Definition fill (env : Env) (newReport : ReportRow.t) (user_id : string)
    (settled : list (nat * File.t)) (slots : list (option (gmap string JsVal)))
  : list (option (gmap string JsVal)) :=
  foldl (fun s p => <[p.1 := Some (evidence_row env newReport user_id p.2)]> s) slots settled.

(** The files of a submission with their positions. *)
Definition indexed (files : list File.t) : list (nat * File.t) :=
  imap (fun k file => (k, file)) files.

(** ** What a submission can add to the trace

    The possible outcomes of each block of [onSubmit], each with the events
    it leaves behind. *)

Definition rpc_args (id user_id : string) (data : ReportFormSchema.t) : RpcArgs.t :=
  {| RpcArgs.p_report_id := id;
     RpcArgs.p_report_data := reportData data user_id;
     RpcArgs.p_categories := map (rpc_category data) (ReportFormSchema.categories data) |}.

Definition assignment_rows (newReport : ReportRow.t) (data : ReportFormSchema.t)
  : list (gmap string JsVal) :=
  map (assignment_row newReport data) (ReportFormSchema.categories data).

Definition evidence_rows (env : Env) (newReport : ReportRow.t) (user_id : string)
    (data : ReportFormSchema.t) : list (gmap string JsVal) :=
  map (evidence_row env newReport user_id) (attached data).

Inductive assignments_shape (newReport : ReportRow.t) (data : ReportFormSchema.t)
  : Outcome unit → list Event → Prop :=
| assignments_none :
    ReportFormSchema.categories data = [] →
    assignments_shape newReport data (Returned tt) []
| assignments_ok :
    ReportFormSchema.categories data ≠ [] →
    assignments_shape newReport data (Returned tt)
      [EInsert "report_category_assignments" (assignment_rows newReport data) None]
| assignments_failed e :
    ReportFormSchema.categories data ≠ [] →
    assignments_shape newReport data (Thrown e)
      [EInsert "report_category_assignments" (assignment_rows newReport data) (Some e);
       ConsoleError "Error creating category assignments:"].

Inductive evidence_shape (env : Env) (newReport : ReportRow.t) (user_id : string)
    (data : ReportFormSchema.t) : Outcome unit → list Event → Prop :=
| evidence_none :
    attached data = [] →
    evidence_shape env newReport user_id data (Returned tt) []
| evidence_ok settled :
    attached data ≠ [] →
    settled ≡ₚ indexed (attached data) →
    evidence_shape env newReport user_id data (Returned tt)
      (map (upload_begin newReport) (attached data)
       ++ map (end_ok newReport) settled
       ++ [EInsert "evidence" (evidence_rows env newReport user_id data) None])
| evidence_upload_failed settled p e :
    attached data ≠ [] →
    (settled ++ [p]) ⊆+ indexed (attached data) →
    evidence_shape env newReport user_id data (Thrown e)
      (map (upload_begin newReport) (attached data)
       ++ map (end_ok newReport) settled
       ++ [EUploadEnd "evidence" (upload_fileName newReport p.2) (Some e);
           ConsoleError "Error uploading file:"])
| evidence_insert_failed settled e :
    attached data ≠ [] →
    settled ≡ₚ indexed (attached data) →
    evidence_shape env newReport user_id data (Thrown e)
      (map (upload_begin newReport) (attached data)
       ++ map (end_ok newReport) settled
       ++ [EInsert "evidence" (evidence_rows env newReport user_id data) (Some e);
           ConsoleError "Error saving evidence:"]).

Definition report_inserted (user_id : string) (data : ReportFormSchema.t)
    (result : JsError + ReportRow.t) : list Event :=
  [ConsoleLog "Creating new report";
   EInsertSingle "reports" (reportData data user_id) result].

Inductive create_shape (env : Env) (user_id : string) (data : ReportFormSchema.t)
  : Outcome unit → list Event → Prop :=
| create_report_failed e :
    create_shape env user_id data (Thrown e)
      (report_inserted user_id data (inl e) ++ [ConsoleError "Error creating report:"])
| create_assignments_failed newReport e evs :
    assignments_shape newReport data (Thrown e) evs →
    create_shape env user_id data (Thrown e)
      (report_inserted user_id data (inr newReport) ++ evs)
| create_evidence_failed newReport e evs1 evs2 :
    assignments_shape newReport data (Returned tt) evs1 →
    evidence_shape env newReport user_id data (Thrown e) evs2 →
    create_shape env user_id data (Thrown e)
      (report_inserted user_id data (inr newReport) ++ evs1 ++ evs2)
| create_ok newReport evs1 evs2 :
    assignments_shape newReport data (Returned tt) evs1 →
    evidence_shape env newReport user_id data (Returned tt) evs2 →
    create_shape env user_id data (Returned tt)
      (report_inserted user_id data (inr newReport) ++ evs1 ++ evs2
       ++ [EToast toast_created]).

Inductive submit_shape (env : Env) (id : option string) (session : option Session.t)
    (data : ReportFormSchema.t) : list Event → Prop :=
| submit_not_logged_in :
    present (session_user_id session) = None →
    submit_shape env id session data [EToast toast_not_logged_in]
| submit_updated user_id rid :
    present (session_user_id session) = Some user_id →
    present id = Some rid →
    submit_shape env id session data
      [ConsoleLog "Submitting form data:"; ConsoleLog "Updating report:";
       ERpc "update_report_with_categories" (rpc_args rid user_id data) None;
       EToast toast_updated; ENavigate "/dashboard"]
| submit_update_failed user_id rid e :
    present (session_user_id session) = Some user_id →
    present id = Some rid →
    submit_shape env id session data
      [ConsoleLog "Submitting form data:"; ConsoleLog "Updating report:";
       ERpc "update_report_with_categories" (rpc_args rid user_id data) (Some e);
       ConsoleError "Error updating report:";
       ConsoleError "Form submission error:"; EToast toast_went_wrong]
| submit_created user_id evs :
    present (session_user_id session) = Some user_id →
    present id = None →
    create_shape env user_id data (Returned tt) evs →
    submit_shape env id session data
      (ConsoleLog "Submitting form data:" :: evs ++ [ENavigate "/dashboard"])
| submit_create_failed user_id e evs :
    present (session_user_id session) = Some user_id →
    present id = None →
    create_shape env user_id data (Thrown e) evs →
    submit_shape env id session data
      (ConsoleLog "Submitting form data:" :: evs
       ++ [ConsoleError "Form submission error:"; EToast toast_went_wrong]).

(** ** Sample collaborators and inputs *)

(** A backend on which every request succeeds; the uploads settle in the
    order they were started. *)
Definition env_ok : Env :=
  {| Date_now := 1700000000000;
     Date_parse := fun s => if String.eqb s "2024-03-05" then ValidDate 1709596800000
                            else InvalidDate;
     select_single := fun _ _ _ => inl "PGRST116";
     rpc_error := fun _ _ _ => None;
     insert_single := fun _ _ _ => inr {| ReportRow.id := "r1" |};
     update_single := fun _ _ _ _ => inr {| ReportRow.id := "r1" |};
     insert_error := fun _ _ _ => None;
     upload_error := fun _ _ _ _ => None;
     getPublicUrl := fun bucket path =>
       "https://example.test/storage/v1/object/public/" +:+ bucket +:+ "/" +:+ path;
     next_settled := fun _ => 0%nat |}.

(** A backend that accepts everything except the insert into [evidence]. *)
Definition env_evidence_rejected : Env :=
  {| Date_now := Date_now env_ok;
     Date_parse := Date_parse env_ok;
     select_single := select_single env_ok;
     rpc_error := rpc_error env_ok;
     insert_single := insert_single env_ok;
     update_single := update_single env_ok;
     insert_error := fun _ table _ =>
       if String.eqb table "evidence" then Some "permission denied" else None;
     upload_error := upload_error env_ok;
     getPublicUrl := getPublicUrl env_ok;
     next_settled := fun _ => 1%nat |}.

(** A stored report without incident date, time or location. *)
Definition sample_fetched : Fetched.t :=
  {| Fetched.title := Some "Broken lamp";
     Fetched.description := Some "The lamp in the hall is broken";
     Fetched.incident_date := None;
     Fetched.incident_time := None;
     Fetched.location := None;
     Fetched.main_category_id := Some "m1";
     Fetched.report_category_assignments :=
       Some [ {| Assignment.subcategory_id := "s1"; Assignment.main_category_id := "m1" |};
              {| Assignment.subcategory_id := "s2"; Assignment.main_category_id := "m1" |} ] |}.

(** A backend that holds [sample_fetched] under every identifier. *)
Definition env_found : Env :=
  {| Date_now := Date_now env_ok;
     Date_parse := Date_parse env_ok;
     select_single := fun _ _ _ => inr sample_fetched;
     rpc_error := rpc_error env_ok;
     insert_single := insert_single env_ok;
     update_single := update_single env_ok;
     insert_error := insert_error env_ok;
     upload_error := upload_error env_ok;
     getPublicUrl := getPublicUrl env_ok;
     next_settled := next_settled env_ok |}.

Definition sample_reports : list Report.t :=
  [ {| Report.id := "r1"; Report.title := "Broken lamp"; Report.status := "resolved";
       Report.incident_date := "2024-03-05";
       Report.case_categories := Some {| CaseCategories.name := "Lighting" |} |};
    {| Report.id := "r2"; Report.title := "Pothole"; Report.status := "in_progress";
       Report.incident_date := ""; Report.case_categories := None |};
    {| Report.id := "r3"; Report.title := "Graffiti"; Report.status := "pending";
       Report.incident_date := "";
       Report.case_categories := Some {| CaseCategories.name := "Walls" |} |} ].

(** A date formatter that knows one date and throws on an invalid one. *)
Definition sample_format_PPP (d : JsDate) : option string :=
  match d with
  | ValidDate _ => Some "March 5th, 2024"
  | InvalidDate => None
  end.

Definition sample_user : option Session.t :=
  Some {| Session.user := Some {| User.id := "u1" |} |}.

Definition sample_files : list File.t :=
  [ {| File.name := "a.png"; File.type := "image/png" |};
    {| File.name := "b.pdf"; File.type := "application/pdf" |} ].

Definition sample_data : ReportFormSchema.t :=
  {| ReportFormSchema.title := "Broken lamp";
     ReportFormSchema.description := "The lamp in the hall is broken";
     ReportFormSchema.incident_date := 1700000000000;
     ReportFormSchema.incident_time := "22:13";
     ReportFormSchema.location := "Hall";
     ReportFormSchema.main_category_id := "m1";
     ReportFormSchema.categories := ["s1"; "s2"; "s3"];
     ReportFormSchema.files := Some sample_files |}.

Definition sample_world (env : Env) : World :=
  {| form := defaultValues env; trace := [] |}.

(** ** Further observations *)

(** [isEditing: !!id] of the hook's result *)
Definition isEditing (id : option string) : bool :=
  match present id with
  | Some _ => true
  | None => false
  end.

Definition is_rpc (e : Event) : bool :=
  match e with
  | ERpc _ _ _ => true
  | _ => false
  end.

(** Reads and row updates, which the service and the query issue. *)
Definition is_select_or_update (e : Event) : bool :=
  match e with
  | ESelectSingle _ _ _ | EUpdateSingle _ _ _ _ => true
  | _ => false
  end.

(** The insert into [reports] was answered with an error. *)
Definition report_insert_failed (e : Event) : bool :=
  match e with
  | EInsertSingle _ _ (inl _) => true
  | _ => false
  end.

(** A bulk insert into [table] was answered with an error. *)
Definition insert_failed (table : string) (e : Event) : bool :=
  match e with
  | EInsert t _ (Some _) => String.eqb t table
  | _ => false
  end.

(** An upload was answered with an error. *)
Definition upload_failed (e : Event) : bool :=
  match e with
  | EUploadEnd _ _ (Some _) => true
  | _ => false
  end.

(** [s] has no occurrence of the character [c]. *)
Fixpoint lacks (c : ascii) (s : string) : bool :=
  match s with
  | EmptyString => true
  | String a rest => negb (Ascii.eqb a c) && lacks c rest
  end.

(** The paths the click handlers of a rendered tree navigate to, and the
    keys of its elements, left to right. *)
Fixpoint click_targets (node : VNode) : list string :=
  match node with
  | Text _ => []
  | Elem _ _ _ onClick children => option_list onClick ++ flat_map click_targets children
  | Badge _ children => flat_map click_targets children
  end.

Fixpoint keys (node : VNode) : list string :=
  match node with
  | Text _ => []
  | Elem _ key _ _ children => option_list key ++ flat_map keys children
  | Badge _ children => flat_map keys children
  end.

(** A backend that rejects the uploads of PDF files. *)
Definition env_pdf_rejected : Env :=
  {| Date_now := Date_now env_ok;
     Date_parse := Date_parse env_ok;
     select_single := select_single env_ok;
     rpc_error := rpc_error env_ok;
     insert_single := insert_single env_ok;
     update_single := update_single env_ok;
     insert_error := insert_error env_ok;
     upload_error := fun _ _ _ file =>
       if String.eqb (File.type file) "application/pdf" then Some "mime type not allowed"
       else None;
     getPublicUrl := getPublicUrl env_ok;
     next_settled := next_settled env_ok |}.

(** A backend that rejects every insert. *)
Definition env_inserts_rejected : Env :=
  {| Date_now := Date_now env_ok;
     Date_parse := Date_parse env_ok;
     select_single := select_single env_ok;
     rpc_error := rpc_error env_ok;
     insert_single := fun _ _ _ => inl "permission denied";
     update_single := update_single env_ok;
     insert_error := fun _ _ _ => Some "permission denied";
     upload_error := upload_error env_ok;
     getPublicUrl := getPublicUrl env_ok;
     next_settled := next_settled env_ok |}.

(** A backend that accepts the report but rejects the bulk inserts. *)
Definition env_bulk_rejected : Env :=
  {| Date_now := Date_now env_ok;
     Date_parse := Date_parse env_ok;
     select_single := select_single env_ok;
     rpc_error := rpc_error env_ok;
     insert_single := insert_single env_ok;
     update_single := update_single env_ok;
     insert_error := fun _ _ _ => Some "permission denied";
     upload_error := upload_error env_ok;
     getPublicUrl := getPublicUrl env_ok;
     next_settled := next_settled env_ok |}.

(** The tables of the bulk inserts of a trace, in order. *)
Definition bulk_insert_tables (evs : list Event) : list string :=
  flat_map (fun e => match e with EInsert t _ _ => [t] | _ => [] end) evs.

(** [sample_data] a few hours earlier on the same day. *)
Definition sample_data_morning : ReportFormSchema.t :=
  {| ReportFormSchema.title := ReportFormSchema.title sample_data;
     ReportFormSchema.description := ReportFormSchema.description sample_data;
     ReportFormSchema.incident_date := 1699950000000;
     ReportFormSchema.incident_time := "08:20";
     ReportFormSchema.location := ReportFormSchema.location sample_data;
     ReportFormSchema.main_category_id := ReportFormSchema.main_category_id sample_data;
     ReportFormSchema.categories := ReportFormSchema.categories sample_data;
     ReportFormSchema.files := ReportFormSchema.files sample_data |}.

Definition sample_evidence : list EvidenceData.t :=
  [ {| EvidenceData.file_url := "https://example.test/a.png";
       EvidenceData.file_type := "image/png";
       EvidenceData.description := Some "The lamp";
       EvidenceData.report_id := "r1";
       EvidenceData.uploaded_by := "u1" |};
    {| EvidenceData.file_url := "https://example.test/b.pdf";
       EvidenceData.file_type := "application/pdf";
       EvidenceData.description := None;
       EvidenceData.report_id := "r1";
       EvidenceData.uploaded_by := "u1" |} ].

Definition sample_ReportData : ReportData.t :=
  {| ReportData.title := "Broken lamp";
     ReportData.description := "The lamp in the hall is broken";
     ReportData.category_id := "c1";
     ReportData.incident_date := None;
     ReportData.incident_time := None;
     ReportData.location := Some "Hall";
     ReportData.user_id := "u1" |}.


(** * Properties *)

(** ** The monad *)

Lemma extend_extend w evs1 evs2 : extend (extend w evs1) evs2 = extend w (evs1 ++ evs2).
Proof. unfold extend; simpl. by rewrite app_assoc. Qed.

Lemma extend_nil w : extend w [] = w.
Proof. destruct w. unfold extend; simpl. by rewrite app_nil_r. Qed.

Lemma bind_returned {A B} (c : M A) (k : A → M B) w a w1 :
  c w = (Returned a, w1) → (c ≫= k) w = k a w1.
Proof. intros H. unfold mbind, M_bind. by rewrite H. Qed.

Lemma bind_thrown {A B} (c : M A) (k : A → M B) w e w1 :
  c w = (Thrown e, w1) → (c ≫= k) w = (Thrown e, w1).
Proof. intros H. unfold mbind, M_bind. by rewrite H. Qed.

Lemma emit_extend e w : emit e w = (Returned tt, extend w [e]).
Proof. reflexivity. Qed.

Section SubmitProofs.
Variable env : Env.

(** ** Awaiting the uploads *)

Lemma promise_all_spec newReport user_id n : ∀ pending slots w,
  length pending = n →
  ∃ settled,
    (settled ≡ₚ pending ∧
     promise_all env n (upload_resume env newReport user_id) pending slots w
     = (Returned (fill env newReport user_id settled slots),
        extend w (map (end_ok newReport) settled)))
    ∨ (∃ p e, (settled ++ [p]) ⊆+ pending ∧
         promise_all env n (upload_resume env newReport user_id) pending slots w
         = (Thrown e,
            extend w (map (end_ok newReport) settled
                      ++ [EUploadEnd "evidence" (upload_fileName newReport p.2) (Some e);
                          ConsoleError "Error uploading file:"]))).
Proof.
  induction n as [|n IH]; intros pending slots w Hlen.
  - destruct pending; [|done]. exists []. left. split; [done|].
    simpl. by rewrite extend_nil.
  - destruct pending as [|p0 ps]; [done|].
    remember (p0 :: ps) as pending eqn:Hpend.
    set (i := (next_settled env (trace w) `mod` length pending)%nat).
    assert (Hi : (i < length pending)%nat).
    { apply Nat.mod_upper_bound. by rewrite Hlen. }
    destruct (lookup_lt_is_Some_2 pending i Hi) as [[k file] Hp].
    assert (Hstep : ∀ slots',
      promise_all env (S n) (upload_resume env newReport user_id) pending slots' w
      = (value ← upload_resume env newReport user_id file;
         promise_all env n (upload_resume env newReport user_id) (delete i pending)
           (<[k := Some value]> slots')) w).
    { intros slots'. unfold i in *. rewrite Hpend in Hp |- *. cbn [promise_all].
      unfold mbind at 1, M_bind at 1, history. cbv beta iota. by rewrite Hp. }
    rewrite Hstep.
    destruct (upload_error env (trace w) "evidence" (upload_fileName newReport file) file)
      as [e|] eqn:Herr.
    + exists []. right. exists (k, file), e. split.
      { simpl. apply singleton_submseteq_l. by eapply list_elem_of_lookup_2. }
      apply bind_thrown.
      unfold upload_resume, mbind, M_bind, history, console_error, emit, throw, extend.
      simpl. rewrite Herr. simpl. by rewrite <- app_assoc.
    + assert (Hres : upload_resume env newReport user_id file w
                     = (Returned (evidence_row env newReport user_id file),
                        extend w [end_ok newReport (k, file)])).
      { unfold upload_resume, mbind, M_bind, history, emit, mret, M_ret. simpl.
        by rewrite Herr. }
      rewrite (bind_returned _ _ _ _ _ Hres).
      destruct (IH (delete i pending)
                  (<[k := Some (evidence_row env newReport user_id file)]> slots)
                  (extend w [end_ok newReport (k, file)])) as [settled H].
      { rewrite length_delete by eauto. rewrite Hlen. simpl. lia. }
      exists ((k, file) :: settled). destruct H as [[Hperm Heq]|(p & e & Hsub & Heq)].
      * left. split.
        { rewrite Hperm. symmetry. by apply delete_Permutation. }
        rewrite Heq, extend_extend. done.
      * right. exists p, e. split.
        { simpl. rewrite (delete_Permutation pending i (k, file)) by done.
          by apply submseteq_skip. }
        rewrite Heq, extend_extend. done.
Qed.

(** *** The result array *)

Lemma length_fill newReport user_id settled : ∀ slots,
  length (fill env newReport user_id settled slots) = length slots.
Proof.
  induction settled as [|p settled IH]; intros slots; [done|].
  simpl. by rewrite IH, length_insert.
Qed.

Lemma fill_lookup_notin newReport user_id settled : ∀ slots k,
  k ∉ settled.*1 → fill env newReport user_id settled slots !! k = slots !! k.
Proof.
  induction settled as [|p settled IH]; intros slots k Hk; [done|].
  simpl in *. apply not_elem_of_cons in Hk as [Hne Hk].
  rewrite IH by done. by apply list_lookup_insert_ne.
Qed.

Lemma fill_lookup_in newReport user_id settled : ∀ slots k file,
  NoDup settled.*1 → (k, file) ∈ settled → (k < length slots)%nat →
  fill env newReport user_id settled slots !! k
  = Some (Some (evidence_row env newReport user_id file)).
Proof.
  induction settled as [|p settled IH]; intros slots k file Hnd Hin Hlt.
  - by apply elem_of_nil in Hin.
  - simpl in *. apply NoDup_cons in Hnd as [Hp Hnd].
    apply elem_of_cons in Hin as [<-|Hin].
    + simpl in *. rewrite fill_lookup_notin by done.
      by apply list_lookup_insert_eq.
    + apply IH; [done..|]. by rewrite length_insert.
Qed.

Lemma indexed_keys files : (indexed files).*1 = seq 0 (length files).
Proof.
  unfold indexed. rewrite fmap_imap.
  rewrite <- (list_fmap_id (seq 0 (length files))).
  rewrite <- (imap_seq_0 files id).
  by apply imap_ext.
Qed.

Lemma fill_indexed newReport user_id files settled :
  settled ≡ₚ indexed files →
  fill env newReport user_id settled (replicate (length files) None)
  = map (λ file, Some (evidence_row env newReport user_id file)) files.
Proof.
  intros Hperm. apply list_eq. intros k.
  destruct (files !! k) as [file|] eqn:Hk.
  - rewrite (fill_lookup_in _ _ _ _ k file).
    + change (map ?f files) with (f <$> files). by rewrite list_lookup_fmap, Hk.
    + rewrite Hperm, indexed_keys. apply NoDup_seq.
    + rewrite Hperm. unfold indexed.
      by apply (elem_of_lookup_imap_2 (λ k file, (k, file))).
    + rewrite length_replicate. by eapply lookup_lt_Some.
  - apply lookup_ge_None in Hk. rewrite !(proj2 (lookup_ge_None _ _)); [done|..].
    + by rewrite length_map.
    + by rewrite length_fill, length_replicate.
Qed.

Lemma omap_Some_map {A B} (f : A → B) (l : list A) :
  omap (λ slot, slot) (map (λ x, Some (f x)) l) = map f l.
Proof. induction l as [|x l IH]; [done|]. simpl. by f_equal. Qed.

(** *** Starting and awaiting the uploads *)

Lemma upload_start_all newReport files : ∀ w,
  ∃ units, mapM (upload_start newReport) files w
           = (Returned units, extend w (map (upload_begin newReport) files)).
Proof.
  induction files as [|file files IH]; intros w.
  - exists []. simpl. by rewrite extend_nil.
  - destruct (IH (extend w [upload_begin newReport file])) as [units Hu].
    exists (tt :: units). simpl.
    unfold mbind at 1, M_bind at 1, upload_start. rewrite emit_extend.
    fold (upload_begin newReport file).
    rewrite (bind_returned _ _ _ _ _ Hu). by rewrite extend_extend.
Qed.

Lemma upload_all_spec newReport user_id files w :
  ∃ settled,
    (settled ≡ₚ indexed files ∧
     upload_all env newReport user_id files w
     = (Returned (map (evidence_row env newReport user_id) files),
        extend w (map (upload_begin newReport) files ++ map (end_ok newReport) settled)))
    ∨ (∃ p e, (settled ++ [p]) ⊆+ indexed files ∧
         upload_all env newReport user_id files w
         = (Thrown e,
            extend w (map (upload_begin newReport) files
                      ++ map (end_ok newReport) settled
                      ++ [EUploadEnd "evidence" (upload_fileName newReport p.2) (Some e);
                          ConsoleError "Error uploading file:"]))).
Proof.
  destruct (upload_start_all newReport files w) as [units Hstart].
  destruct (promise_all_spec newReport user_id (length files) (indexed files)
              (replicate (length files) None)
              (extend w (map (upload_begin newReport) files))) as [settled H].
  { unfold indexed. by rewrite length_imap. }
  exists settled. unfold upload_all. rewrite (bind_returned _ _ _ _ _ Hstart).
  fold (indexed files).
  destruct H as [[Hperm Heq]|(p & e & Hsub & Heq)].
  - left. split; [done|]. rewrite (bind_returned _ _ _ _ _ Heq).
    rewrite fill_indexed by done. rewrite omap_Some_map. by rewrite extend_extend.
  - right. exists p, e. split; [done|]. rewrite (bind_thrown _ _ _ _ _ Heq).
    by rewrite extend_extend.
Qed.

(** ** The blocks of [onSubmit] *)

Lemma attached_nonempty data files :
  ReportFormSchema.files data = Some files → (0 <? length files)%nat = true →
  attached data = files ∧ attached data ≠ [].
Proof.
  intros Hf Hlen. unfold attached. rewrite Hf. simpl. split; [done|].
  intros ->. simpl in Hlen. discriminate.
Qed.

Lemma supabase_insert_run table rows w :
  supabase_insert env table rows w
  = (Returned (insert_error env (trace w) table rows),
     extend w [EInsert table rows (insert_error env (trace w) table rows)]).
Proof. reflexivity. Qed.

Lemma insert_assignments_spec newReport data w :
  ∃ out evs, insert_assignments env newReport data w = (out, extend w evs)
             ∧ assignments_shape newReport data out evs.
Proof.
  unfold insert_assignments.
  destruct (0 <? length (ReportFormSchema.categories data))%nat eqn:Hlen.
  - assert (Hne : ReportFormSchema.categories data ≠ []).
    { intros Heq. rewrite Heq in Hlen. discriminate. }
    rewrite (bind_returned _ _ _ _ _ (supabase_insert_run _ _ w)).
    fold (assignment_rows newReport data).
    destruct (insert_error env (trace w) "report_category_assignments"
                (assignment_rows newReport data)) as [e|].
    + eexists (Thrown e), _. split; [|by apply assignments_failed].
      unfold console_error. rewrite (bind_returned _ _ _ _ _ (emit_extend _ _)).
      unfold throw. by rewrite extend_extend.
    + eexists (Returned tt), _. split; [|by apply assignments_ok]. done.
  - exists (Returned tt), []. split; [by rewrite extend_nil|].
    apply assignments_none. destruct (ReportFormSchema.categories data); [done|].
    discriminate.
Qed.

Lemma insert_evidence_spec newReport user_id data w :
  ∃ out evs, insert_evidence env newReport user_id data w = (out, extend w evs)
             ∧ evidence_shape env newReport user_id data out evs.
Proof.
  unfold insert_evidence.
  destruct (ReportFormSchema.files data) as [files|] eqn:Hfiles.
  2:{ exists (Returned tt), []. split; [by rewrite extend_nil|].
      apply evidence_none. unfold attached. by rewrite Hfiles. }
  destruct (0 <? length files)%nat eqn:Hlen.
  2:{ exists (Returned tt), []. split; [by rewrite extend_nil|].
      apply evidence_none. unfold attached. rewrite Hfiles. simpl.
      destruct files; [done|discriminate]. }
  destruct (attached_nonempty data files Hfiles Hlen) as [Hatt Hne].
  destruct (upload_all_spec newReport user_id files w) as [settled H].
  rewrite <- Hatt in H.
  destruct H as [[Hperm Heq]|(p & e & Hsub & Heq)]; rewrite Hatt in Heq.
  - rewrite (bind_returned _ _ _ _ _ Heq).
    rewrite (bind_returned _ _ _ _ _ (supabase_insert_run _ _ _)).
    rewrite <- Hatt. fold (evidence_rows env newReport user_id data).
    match goal with |- context [insert_error ?a ?b ?c ?d] =>
      destruct (insert_error a b c d) as [e|] end.
    + eexists (Thrown e), _. split; [|by apply (evidence_insert_failed _ _ _ _ settled)].
      unfold console_error. rewrite (bind_returned _ _ _ _ _ (emit_extend _ _)).
      unfold throw. rewrite !extend_extend. by rewrite <- ?app_assoc.
    + eexists (Returned tt), _. split; [|by apply (evidence_ok _ _ _ _ settled)].
      unfold mret, M_ret. rewrite !extend_extend. by rewrite <- ?app_assoc.
  - rewrite (bind_thrown _ _ _ _ _ Heq). rewrite <- Hatt.
    eexists (Thrown e), _. split; [done|]. by apply evidence_upload_failed.
Qed.

Lemma create_path_spec user_id data w :
  ∃ out evs, create_path env user_id data w = (out, extend w evs)
             ∧ create_shape env user_id data out evs.
Proof.
  unfold create_path, console_log.
  rewrite (bind_returned _ _ _ _ _ (emit_extend _ _)).
  assert (Hins : ∀ w', supabase_insert_single env "reports" (reportData data user_id) w'
    = (Returned (insert_single env (trace w') "reports" (reportData data user_id)),
       extend w' [EInsertSingle "reports" (reportData data user_id)
                    (insert_single env (trace w') "reports" (reportData data user_id))]))
    by reflexivity.
  rewrite (bind_returned _ _ _ _ _ (Hins _)). rewrite extend_extend.
  destruct (insert_single env _ "reports" (reportData data user_id)) as [e|newReport].
  - eexists (Thrown e), _. split; [|apply create_report_failed].
    unfold console_error. rewrite (bind_returned _ _ _ _ _ (emit_extend _ _)).
    unfold throw. by rewrite extend_extend.
  - destruct (insert_assignments_spec newReport data
                (extend w (report_inserted user_id data (inr newReport))))
      as (out1 & evs1 & Heq1 & Hs1).
    unfold report_inserted in Heq1. simpl in Heq1 |- *.
    destruct out1 as [[]|e].
    2:{ rewrite (bind_thrown _ _ _ _ _ Heq1). rewrite extend_extend.
        eexists (Thrown e), _. split; [done|]. by apply create_assignments_failed. }
    rewrite (bind_returned _ _ _ _ _ Heq1). rewrite extend_extend.
    destruct (insert_evidence_spec newReport user_id data
                (extend w (report_inserted user_id data (inr newReport) ++ evs1)))
      as (out2 & evs2 & Heq2 & Hs2).
    unfold report_inserted in Heq2. simpl in Heq2 |- *.
    destruct out2 as [[]|e].
    2:{ rewrite (bind_thrown _ _ _ _ _ Heq2). rewrite extend_extend.
        eexists (Thrown e), _. split; [by rewrite <- ?app_assoc|].
        by apply create_evidence_failed. }
    rewrite (bind_returned _ _ _ _ _ Heq2). rewrite extend_extend.
    eexists (Returned tt), _. split; [|by apply create_ok].
    unfold toast. rewrite emit_extend, extend_extend. simpl.
    by rewrite <- ?app_assoc.
Qed.

Lemma update_path_spec rid user_id data w :
  update_path env rid user_id data w
  = match rpc_error env (trace w ++ [ConsoleLog "Updating report:"])
            "update_report_with_categories" (rpc_args rid user_id data) with
    | Some e =>
        (Thrown e,
         extend w [ConsoleLog "Updating report:";
                   ERpc "update_report_with_categories" (rpc_args rid user_id data) (Some e);
                   ConsoleError "Error updating report:"])
    | None =>
        (Returned tt,
         extend w [ConsoleLog "Updating report:";
                   ERpc "update_report_with_categories" (rpc_args rid user_id data) None;
                   EToast toast_updated])
    end.
Proof.
  unfold update_path, console_log, supabase_rpc, console_error, toast, throw.
  unfold mbind, M_bind, history, emit, mret, M_ret, extend. simpl.
  fold (rpc_args rid user_id data).
  destruct (rpc_error env _ _ _); simpl; by rewrite <- ?app_assoc.
Qed.

Lemma onSubmit_spec id session data w :
  ∃ evs, onSubmit env id session data w = (Returned tt, extend w evs)
         ∧ submit_shape env id session data evs.
Proof.
  unfold onSubmit, try_catch.
  destruct (present (session_user_id session)) as [user_id|] eqn:Huser.
  2:{ eexists. split; [reflexivity|]. by apply submit_not_logged_in. }
  unfold console_log. rewrite (bind_returned _ _ _ _ _ (emit_extend _ _)).
  destruct (present id) as [rid|] eqn:Hid.
  - pose proof (update_path_spec rid user_id data
                  (extend w [ConsoleLog "Submitting form data:"])) as Hup.
    simpl in Hup.
    destruct (rpc_error env _ _ _) as [e|].
    + rewrite (bind_thrown _ _ _ _ _ Hup).
      eexists. split; [|by apply (submit_update_failed _ _ _ _ user_id rid e)].
      unfold console_error, toast, mbind, M_bind, emit, extend. simpl.
      by rewrite <- ?app_assoc.
    + rewrite (bind_returned _ _ _ _ _ Hup).
      eexists. split; [|by apply (submit_updated _ _ _ _ user_id rid)].
      unfold navigate, emit, extend. simpl. by rewrite <- ?app_assoc.
  - destruct (create_path_spec user_id data
                (extend w [ConsoleLog "Submitting form data:"]))
      as (out & evs & Heq & Hshape).
    destruct out as [[]|e].
    + rewrite (bind_returned _ _ _ _ _ Heq).
      eexists. split; [|by apply (submit_created _ _ _ _ user_id evs)].
      unfold navigate. rewrite emit_extend, !extend_extend. done.
    + rewrite (bind_thrown _ _ _ _ _ Heq).
      eexists. split; [|by apply (submit_create_failed _ _ _ _ user_id e evs)].
      unfold console_error, toast.
      rewrite (bind_returned _ _ _ _ _ (emit_extend _ _)).
      rewrite emit_extend, !extend_extend. simpl. by rewrite <- ?app_assoc.
Qed.

(** Every call of [onSubmit] returns; it leaves the form as it was and adds
    to the trace the events [submitted], which have one of the shapes. *)
Lemma onSubmit_submitted id session data w :
  onSubmit env id session data w
  = (Returned tt, extend w (submitted env id session data w))
  ∧ submit_shape env id session data (submitted env id session data w).
Proof.
  destruct (onSubmit_spec id session data w) as (evs & Heq & Hshape).
  assert (submitted env id session data w = evs) as ->; [|done].
  unfold submitted. rewrite Heq. simpl. by rewrite drop_app_length.
Qed.

End SubmitProofs.

(** ** Observations on the events of the uploads *)

Lemma filter_map_none {A} (p : Event → bool) (f : A → Event) (l : list A) :
  (∀ x, p (f x) = false) → List.filter p (map f l) = [].
Proof. intros H. induction l as [|x l IH]; [done|]. simpl. by rewrite H. Qed.

Lemma filter_map_all {A} (p : Event → bool) (f : A → Event) (l : list A) :
  (∀ x, p (f x) = true) → List.filter p (map f l) = map f l.
Proof. intros H. induction l as [|x l IH]; [done|]. simpl. by rewrite H, IH. Qed.

Lemma all_writes_ok_map {A} (f : A → Event) (l : list A) :
  (∀ x, write_failed (f x) = false) → all_writes_ok (map f l) = true.
Proof.
  intros H. induction l as [|x l IH]; [done|].
  unfold all_writes_ok in *. simpl. by rewrite H, IH.
Qed.

Lemma rows_inserted_app table evs1 evs2 :
  rows_inserted table (evs1 ++ evs2)
  = rows_inserted table evs1 ++ rows_inserted table evs2.
Proof. apply flat_map_app. Qed.

Lemma rows_inserted_map_none {A} table (f : A → Event) (l : list A) :
  (∀ x, rows_inserted table [f x] = []) → rows_inserted table (map f l) = [].
Proof.
  intros H. induction l as [|x l IH]; [done|].
  change (map f (x :: l)) with ([f x] ++ map f l).
  by rewrite rows_inserted_app, H, IH.
Qed.

Lemma toasts_app evs1 evs2 : toasts (evs1 ++ evs2) = toasts evs1 ++ toasts evs2.
Proof. apply omap_app. Qed.

Lemma toasts_map_none {A} (f : A → Event) (l : list A) :
  (∀ x, toasts [f x] = []) → toasts (map f l) = [].
Proof.
  intros H. induction l as [|x l IH]; [done|].
  change (map f (x :: l)) with ([f x] ++ map f l).
  by rewrite toasts_app, H, IH.
Qed.

Lemma all_writes_ok_app evs1 evs2 :
  all_writes_ok (evs1 ++ evs2) = all_writes_ok evs1 && all_writes_ok evs2.
Proof. apply forallb_app. Qed.

(** Rewriting an observation through the events of a submission. *)
Ltac observe :=
  repeat first
    [ rewrite List.filter_app | rewrite rows_inserted_app | rewrite toasts_app
    | rewrite all_writes_ok_app
    | rewrite (filter_map_none _ (upload_begin _)) by done
    | rewrite (filter_map_none _ (end_ok _)) by done
    | rewrite (filter_map_all _ (upload_begin _)) by done
    | rewrite (filter_map_all _ (end_ok _)) by done
    | rewrite (rows_inserted_map_none _ (upload_begin _)) by done
    | rewrite (rows_inserted_map_none _ (end_ok _)) by done
    | rewrite (toasts_map_none (upload_begin _)) by done
    | rewrite (toasts_map_none (end_ok _)) by done
    | rewrite (all_writes_ok_map (upload_begin _)) by done
    | rewrite (all_writes_ok_map (end_ok _)) by done
    | rewrite length_app | rewrite length_map | rewrite app_nil_r
    | progress simpl ].

(** ** Failed and successful creations *)

(** A creation that throws stops right after a write that was answered with
    an error: nothing precedes it but successful steps, and only the
    diagnostic line follows. *)
Lemma create_thrown env user_id data e evs :
  create_shape env user_id data (Thrown e) evs →
  ∃ pre bad msg,
    evs = pre ++ [bad; ConsoleError msg]
    ∧ write_failed bad = true
    ∧ all_writes_ok pre = true
    ∧ toasts pre = []
    ∧ List.filter is_navigate pre = [].
Proof.
  intros Hshape. inversion Hshape as [e'|nr e' evs1 H1|nr e' evs1 evs2 H1 H2|]; subst.
  - exists [ConsoleLog "Creating new report"],
      (EInsertSingle "reports" (reportData data user_id) (inl e)),
      "Error creating report:".
    by repeat split.
  - inversion H1; subst.
    exists (report_inserted user_id data (inr nr)). do 2 eexists. by repeat split.
  - assert (Hpre1 : all_writes_ok evs1 = true ∧ toasts evs1 = []
                    ∧ List.filter is_navigate evs1 = []).
    { by inversion H1. }
    destruct Hpre1 as (Ha & Ht & Hn).
    inversion H2 as [|?|settled p e'' Hne Hsub|settled e'' Hne Hperm]; subst.
    + exists (report_inserted user_id data (inr nr) ++ evs1
              ++ map (upload_begin nr) (attached data) ++ map (end_ok nr) settled).
      do 2 eexists. split; [by rewrite <- !app_assoc|].
      split; [done|]. unfold report_inserted. observe.
      rewrite Ha, Ht, Hn. by repeat split.
    + exists (report_inserted user_id data (inr nr) ++ evs1
              ++ map (upload_begin nr) (attached data) ++ map (end_ok nr) settled).
      do 2 eexists. split; [by rewrite <- !app_assoc|].
      split; [done|]. unfold report_inserted. observe.
      rewrite Ha, Ht, Hn. by repeat split.
Qed.

(** The events of a submission on the create path in which no write was
    answered with an error. *)
Lemma create_success env id session data w user_id :
  present (session_user_id session) = Some user_id →
  present id = None →
  all_writes_ok (submitted env id session data w) = true →
  ∃ newReport evs1 evs2,
    submitted env id session data w
    = ConsoleLog "Submitting form data:"
      :: (report_inserted user_id data (inr newReport) ++ evs1 ++ evs2
          ++ [EToast toast_created]) ++ [ENavigate "/dashboard"]
    ∧ assignments_shape newReport data (Returned tt) evs1
    ∧ evidence_shape env newReport user_id data (Returned tt) evs2.
Proof.
  intros Huser Hid Hok.
  destruct (onSubmit_submitted env id session data w) as [_ Hshape].
  inversion Hshape as [Hn|u r Hu Hr|u r e Hu Hr|u evs Hu Hr Hc Heq|u e evs Hu Hr Hc Heq];
    try congruence.
  - assert (u = user_id) as -> by congruence.
    inversion Hc as [| | |nr evs1 evs2 H1 H2]; subst. by exists nr, evs1, evs2.
  - destruct (create_thrown _ _ _ _ _ Hc) as (pre & bad & msg & -> & Hbad & _).
    rewrite <- Heq in Hok.
    change (ConsoleLog "Submitting form data:"
            :: (pre ++ [bad; ConsoleError msg]) ++ ?l)
      with ([ConsoleLog "Submitting form data:"] ++ (pre ++ [bad] ++ [ConsoleError msg]) ++ l)
      in Hok.
    rewrite !all_writes_ok_app in Hok.
    assert (all_writes_ok [bad] = false) as Hb.
    { unfold all_writes_ok. simpl. by rewrite Hbad. }
    rewrite Hb in Hok. rewrite !andb_false_r in Hok. simpl in Hok. done.
Qed.

(** ** The rows *)

Lemma assignment_row_lookup newReport data c :
  assignment_row newReport data c !! "report_id" = Some (JStr (ReportRow.id newReport))
  ∧ assignment_row newReport data c !! "subcategory_id" = Some (JStr c)
  ∧ assignment_row newReport data c !! "main_category_id"
    = Some (JStr (ReportFormSchema.main_category_id data))
  ∧ assignment_row newReport data c !! "is_primary" = Some (JBool false).
Proof. unfold assignment_row, obj. simpl. repeat split; by simplify_map_eq. Qed.

Lemma rpc_category_lookup data c :
  rpc_category data c !! "subcategory_id" = Some (JStr c)
  ∧ rpc_category data c !! "main_category_id"
    = Some (JStr (ReportFormSchema.main_category_id data))
  ∧ rpc_category data c !! "is_primary" = Some (JBool false).
Proof. unfold rpc_category, obj. simpl. repeat split; by simplify_map_eq. Qed.

Lemma evidence_row_lookup env newReport user_id file :
  evidence_row env newReport user_id file !! "report_id"
  = Some (JStr (ReportRow.id newReport))
  ∧ evidence_row env newReport user_id file !! "file_url"
    = Some (JStr (getPublicUrl env "evidence"
                    (ReportRow.id newReport +:+ "/" +:+ File.name file)))
  ∧ evidence_row env newReport user_id file !! "file_type" = Some (JStr (File.type file))
  ∧ evidence_row env newReport user_id file !! "uploaded_by" = Some (JStr user_id).
Proof. unfold evidence_row, obj. simpl. repeat split; by simplify_map_eq. Qed.

Lemma flat_map_map_nil {A B} (g : Event → list B) (f : A → Event) (l : list A) :
  (∀ x, g (f x) = []) → flat_map g (map f l) = [].
Proof. intros H. induction l as [|x l IH]; [done|]. simpl. by rewrite H, IH. Qed.

(** A creation that returns has had every write accepted. *)
Lemma create_returned_ok env user_id data evs :
  create_shape env user_id data (Returned tt) evs → all_writes_ok evs = true.
Proof.
  intros Hshape. inversion Hshape as [| | |nr evs1 evs2 H1 H2]; subst.
  unfold report_inserted.
  inversion H1; inversion H2; subst; observe; done.
Qed.

(** Whatever the outcome of a creation, the assignment records it wrote
    satisfy [P] as soon as the rows built for the insert do. *)
Lemma create_assignment_records env user_id data out evs (P : gmap string JsVal → Prop) :
  (∀ newReport c, P (assignment_row newReport data c)) →
  create_shape env user_id data out evs →
  Forall P (flat_map assignment_records evs).
Proof.
  intros HP Hshape.
  assert (H1 : ∀ nr o evs1, assignments_shape nr data o evs1 →
                 Forall P (flat_map assignment_records evs1)).
  { intros nr o evs1 H. inversion H; subst; simpl; rewrite ?app_nil_r;
      try done; unfold assignment_rows; apply Forall_map, Forall_forall; intros; apply HP. }
  assert (H2 : ∀ nr o evs2, evidence_shape env nr user_id data o evs2 →
                 flat_map assignment_records evs2 = []).
  { intros nr o evs2 H. inversion H; subst; try done;
      rewrite !flat_map_app, !flat_map_map_nil by done; done. }
  inversion Hshape as [e|nr e evs1 Ha|nr e evs1 evs2 Ha He|nr evs1 evs2 Ha He]; subst;
    unfold report_inserted; rewrite ?flat_map_app; simpl.
  - done.
  - by eapply H1.
  - rewrite (H2 _ _ _ He), app_nil_r. by eapply H1.
  - rewrite (H2 _ _ _ He), app_nil_r. by eapply H1.
Qed.

(** A submission with a failed write stops right after it: only successful
    steps precede the failed write, and the diagnostic lines and the generic
    toast follow. *)
Lemma submit_failed env id session data evs :
  submit_shape env id session data evs →
  all_writes_ok evs = false →
  ∃ pre bad msg,
    evs = pre ++ [bad; ConsoleError msg; ConsoleError "Form submission error:";
                  EToast toast_went_wrong]
    ∧ all_writes_ok pre = true
    ∧ write_failed bad = true
    ∧ toasts pre = []
    ∧ List.filter is_navigate pre = [].
Proof.
  intros Hshape Hfail.
  destruct Hshape as [Hn|u r Hu Hr|u r e Hu Hr|u evs Hu Hr Hc|u e evs Hu Hr Hc].
  - done.
  - done.
  - exists [ConsoleLog "Submitting form data:"; ConsoleLog "Updating report:"].
    do 2 eexists. by repeat split.
  - change (all_writes_ok ([ConsoleLog "Submitting form data:"] ++ evs
                           ++ [ENavigate "/dashboard"]) = false) in Hfail.
    rewrite !all_writes_ok_app, (create_returned_ok _ _ _ _ Hc) in Hfail. done.
  - destruct (create_thrown _ _ _ _ _ Hc) as (pre & bad & msg & -> & Hbad & Hpre & Ht & Hn).
    exists (ConsoleLog "Submitting form data:" :: pre), bad, msg.
    split; [by rewrite <- app_assoc|].
    change (ConsoleLog "Submitting form data:" :: pre)
      with ([ConsoleLog "Submitting form data:"] ++ pre).
    observe. by rewrite Hpre, Ht, Hn.
Qed.

(** * The claims about [onSubmit] *)

(** C2.  Without an authenticated session ([session?.user?.id] is missing or
    empty) [onSubmit] returns, and all it does is show the toast "You must be
    logged in to submit a report": it issues no write of any kind and does
    not navigate; the form keeps its values. *)
Theorem C2_no_session_no_writes env id session data w :
  present (session_user_id session) = None →
  onSubmit env id session data w
  = (Returned tt, extend w (submitted env id session data w))
  ∧ submitted env id session data w = [EToast toast_not_logged_in]
  ∧ List.filter is_write (submitted env id session data w) = []
  ∧ List.filter is_navigate (submitted env id session data w) = []
  ∧ Toast.description toast_not_logged_in = "You must be logged in to submit a report".
Proof.
  intros Hnone.
  assert (Hrun : onSubmit env id session data w
                 = (Returned tt, extend w [EToast toast_not_logged_in])).
  { unfold onSubmit, try_catch. by rewrite Hnone. }
  assert (Hsub : submitted env id session data w = [EToast toast_not_logged_in]).
  { unfold submitted. rewrite Hrun. simpl. by rewrite drop_app_length. }
  rewrite Hsub. by repeat split.
Qed.

Lemma C2_no_session_witness :
  submitted env_ok None None sample_data (sample_world env_ok)
  = [EToast toast_not_logged_in].
Proof.
  apply (C2_no_session_no_writes env_ok None None sample_data (sample_world env_ok)).
  reflexivity.
Defined.

(** The properties of [reportData]: the form's values under the seven
    column names, the incident date as its calendar date, and the user. *)
Lemma reportData_lookup data user_id :
  reportData data user_id !! "title" = Some (JStr (ReportFormSchema.title data))
  ∧ reportData data user_id !! "description"
    = Some (JStr (ReportFormSchema.description data))
  ∧ reportData data user_id !! "incident_date"
    = Some (JStr (iso_date (ReportFormSchema.incident_date data)))
  ∧ reportData data user_id !! "incident_time"
    = Some (JStr (ReportFormSchema.incident_time data))
  ∧ reportData data user_id !! "location" = Some (JStr (ReportFormSchema.location data))
  ∧ reportData data user_id !! "main_category_id"
    = Some (JStr (ReportFormSchema.main_category_id data))
  ∧ reportData data user_id !! "user_id" = Some (JStr user_id)
  ∧ dom (reportData data user_id)
    = ({["title"; "description"; "incident_date"; "incident_time"; "location";
         "main_category_id"; "user_id"]} : gset string).
Proof.
  unfold reportData, obj. cbn [list_to_map foldr fst snd].
  repeat split; by simplify_map_eq.
Qed.

Lemma rpc_category_dom data c :
  dom (rpc_category data c)
  = ({["subcategory_id"; "main_category_id"; "is_primary"]} : gset string).
Proof.
  unfold rpc_category, obj. cbn [list_to_map foldr fst snd].
  rewrite !dom_insert_L, dom_empty_L. apply set_eq. intros k.
  rewrite !elem_of_union, !elem_of_singleton, elem_of_empty. tauto.
Qed.

(** C5.  On the update path (a route identifier and an authenticated user)
    the only write [onSubmit] issues is one call of the procedure
    [update_report_with_categories]; no insert and no upload is issued.  Its
    arguments are the report identifier; the report data, an object with
    exactly the properties title, description, incident_date,
    incident_time, location, main_category_id and user_id, holding the
    form's values, the calendar date of the incident date and the user's
    identifier; and the category list, with one entry per chosen category,
    in order, each with exactly the properties subcategory_id (that
    category), main_category_id (the form's) and is_primary (false). *)
Theorem C5_update_single_call env id session data w user_id rid :
  present (session_user_id session) = Some user_id →
  present id = Some rid →
  ∃ error,
    List.filter is_write (submitted env id session data w)
    = [ERpc "update_report_with_categories"
         {| RpcArgs.p_report_id := rid;
            RpcArgs.p_report_data := reportData data user_id;
            RpcArgs.p_categories :=
              map (rpc_category data) (ReportFormSchema.categories data) |}
         error]
    ∧ map (λ c, c !! "subcategory_id")
          (map (rpc_category data) (ReportFormSchema.categories data))
      = map (λ s, Some (JStr s)) (ReportFormSchema.categories data)
    ∧ reportData data user_id !! "title" = Some (JStr (ReportFormSchema.title data))
    ∧ reportData data user_id !! "description"
      = Some (JStr (ReportFormSchema.description data))
    ∧ reportData data user_id !! "incident_date"
      = Some (JStr (iso_date (ReportFormSchema.incident_date data)))
    ∧ reportData data user_id !! "incident_time"
      = Some (JStr (ReportFormSchema.incident_time data))
    ∧ reportData data user_id !! "location"
      = Some (JStr (ReportFormSchema.location data))
    ∧ reportData data user_id !! "main_category_id"
      = Some (JStr (ReportFormSchema.main_category_id data))
    ∧ reportData data user_id !! "user_id" = Some (JStr user_id)
    ∧ dom (reportData data user_id)
      = ({["title"; "description"; "incident_date"; "incident_time"; "location";
           "main_category_id"; "user_id"]} : gset string)
    ∧ length (map (rpc_category data) (ReportFormSchema.categories data))
      = length (ReportFormSchema.categories data)
    ∧ Forall (λ entry,
                entry !! "main_category_id"
                = Some (JStr (ReportFormSchema.main_category_id data))
                ∧ entry !! "is_primary" = Some (JBool false)
                ∧ dom entry
                  = ({["subcategory_id"; "main_category_id"; "is_primary"]}
                     : gset string))
        (map (rpc_category data) (ReportFormSchema.categories data)).
Proof.
  intros Huser Hid.
  destruct (onSubmit_submitted env id session data w) as [_ Hshape].
  assert (Hsub : ∀ c, rpc_category data c !! "subcategory_id" = Some (JStr c)).
  { intros c. apply rpc_category_lookup. }
  assert (Hmap : map (λ c, c !! "subcategory_id")
                   (map (rpc_category data) (ReportFormSchema.categories data))
                 = map (λ s, Some (JStr s)) (ReportFormSchema.categories data)).
  { rewrite map_map. apply map_ext. intros c. apply Hsub. }
  assert (Hentries : Forall (λ entry,
                entry !! "main_category_id"
                = Some (JStr (ReportFormSchema.main_category_id data))
                ∧ entry !! "is_primary" = Some (JBool false)
                ∧ dom entry
                  = ({["subcategory_id"; "main_category_id"; "is_primary"]}
                     : gset string))
        (map (rpc_category data) (ReportFormSchema.categories data))).
  { apply Forall_map, Forall_forall. intros c _.
    destruct (rpc_category_lookup data c) as (_ & Hm & Hp).
    split; [done|]. split; [done|]. apply rpc_category_dom. }
  destruct (reportData_lookup data user_id)
    as (Ht & Hd & Hdate & Htime & Hloc & Hmain & Hu' & Hdom).
  inversion Hshape as [Hn|u r Hu Hr|u r e Hu Hr|u evs Hu Hr|u e evs Hu Hr];
    try congruence.
  - assert (u = user_id) as -> by congruence. assert (r = rid) as -> by congruence.
    exists None. rewrite length_map. by repeat split.
  - assert (u = user_id) as -> by congruence. assert (r = rid) as -> by congruence.
    exists (Some e). rewrite length_map. by repeat split.
Qed.

Lemma C5_update_witness :
  ∃ error,
    List.filter is_write
      (submitted env_ok (Some "r7") sample_user sample_data (sample_world env_ok))
    = [ERpc "update_report_with_categories"
         {| RpcArgs.p_report_id := "r7";
            RpcArgs.p_report_data := reportData sample_data "u1";
            RpcArgs.p_categories := map (rpc_category sample_data) ["s1"; "s2"; "s3"] |}
         error]
    ∧ map (λ c, c !! "subcategory_id") (map (rpc_category sample_data) ["s1"; "s2"; "s3"])
      = [Some (JStr "s1"); Some (JStr "s2"); Some (JStr "s3")]
    ∧ reportData sample_data "u1" !! "title" = Some (JStr "Broken lamp")
    ∧ reportData sample_data "u1" !! "incident_date" = Some (JStr "2023-11-14")
    ∧ reportData sample_data "u1" !! "main_category_id" = Some (JStr "m1")
    ∧ reportData sample_data "u1" !! "user_id" = Some (JStr "u1").
Proof.
  destruct (C5_update_single_call env_ok (Some "r7") sample_user sample_data
              (sample_world env_ok) "u1" "r7")
    as (error & Hw & Hsub & Ht & _ & Hdate & _ & _ & Hmain & Hu & _);
    [reflexivity..|].
  exists error. exact (conj Hw (conj Hsub (conj Ht (conj Hdate (conj Hmain Hu))))).
Defined.

(** C3.  On the create path, when no write is answered with an error, the
    category assignments inserted are exactly one row per chosen category,
    in order, each with the identifier of the report row that the insert
    into [reports] returned; with no category chosen there is no insert into
    [report_category_assignments], otherwise there is exactly one. *)
Theorem C3_create_assignment_rows env id session data w user_id :
  present (session_user_id session) = Some user_id →
  present id = None →
  all_writes_ok (submitted env id session data w) = true →
  ∃ newReport,
    List.filter is_report_insert (submitted env id session data w)
    = [EInsertSingle "reports" (reportData data user_id) (inr newReport)]
    ∧ length (rows_inserted "report_category_assignments" (submitted env id session data w))
      = length (ReportFormSchema.categories data)
    ∧ Forall (λ row, row !! "report_id" = Some (JStr (ReportRow.id newReport)))
        (rows_inserted "report_category_assignments" (submitted env id session data w))
    ∧ map (λ row, row !! "subcategory_id")
        (rows_inserted "report_category_assignments" (submitted env id session data w))
      = map (λ c, Some (JStr c)) (ReportFormSchema.categories data)
    ∧ length (List.filter (inserts_into "report_category_assignments")
                (submitted env id session data w))
      = match ReportFormSchema.categories data with [] => 0%nat | _ => 1%nat end.
Proof.
  intros Huser Hid Hok.
  destruct (create_success env id session data w user_id Huser Hid Hok)
    as (nr & evs1 & evs2 & -> & H1 & H2).
  exists nr. unfold report_inserted.
  assert (Hev2 : List.filter is_report_insert evs2 = []
                 ∧ rows_inserted "report_category_assignments" evs2 = []
                 ∧ List.filter (inserts_into "report_category_assignments") evs2 = []).
  { inversion H2; subst; observe; done. }
  destruct Hev2 as (Hr2 & Hrows2 & Hins2).
  assert (Hev1 : List.filter is_report_insert evs1 = []
                 ∧ rows_inserted "report_category_assignments" evs1
                   = assignment_rows nr data
                 ∧ length (List.filter (inserts_into "report_category_assignments") evs1)
                   = match ReportFormSchema.categories data with
                     | [] => 0%nat | _ => 1%nat end).
  { inversion H1 as [Hnil|Hne|]; subst; observe.
    - unfold assignment_rows. by rewrite Hnil.
    - by destruct (ReportFormSchema.categories data). }
  destruct Hev1 as (Hr1 & Hrows1 & Hins1).
  observe. rewrite Hr1, Hr2, Hrows1, Hrows2, Hins2. observe.
  rewrite Hins1, !Nat.add_0_r. unfold assignment_rows. rewrite length_map.
  split; [done|]. split; [done|]. split; [|split; [|done]].
  - apply Forall_map, Forall_forall. intros c _. apply assignment_row_lookup.
  - rewrite map_map. apply map_ext. intros c. apply assignment_row_lookup.
Qed.

Lemma C3_create_assignment_witness :
  ∃ newReport,
    List.filter is_report_insert
      (submitted env_ok None sample_user sample_data (sample_world env_ok))
    = [EInsertSingle "reports" (reportData sample_data "u1") (inr newReport)]
    ∧ length (rows_inserted "report_category_assignments"
                (submitted env_ok None sample_user sample_data (sample_world env_ok)))
      = 3%nat
    ∧ Forall (λ row, row !! "report_id" = Some (JStr (ReportRow.id newReport)))
        (rows_inserted "report_category_assignments"
           (submitted env_ok None sample_user sample_data (sample_world env_ok)))
    ∧ map (λ row, row !! "subcategory_id")
        (rows_inserted "report_category_assignments"
           (submitted env_ok None sample_user sample_data (sample_world env_ok)))
      = [Some (JStr "s1"); Some (JStr "s2"); Some (JStr "s3")]
    ∧ length (List.filter (inserts_into "report_category_assignments")
                (submitted env_ok None sample_user sample_data (sample_world env_ok)))
      = 1%nat.
Proof.
  apply (C3_create_assignment_rows env_ok None sample_user sample_data
           (sample_world env_ok) "u1"); reflexivity.
Defined.

(** C4.  On the create path, when no write is answered with an error, one
    upload is started per attached file, to the path
    [<report id>/<file name>] of the bucket [evidence], and the evidence rows
    inserted are exactly one per attached file, in order: the row of a file
    has the public address of that path, the file's MIME type, the
    identifier of the submitting user and the identifier of the new report.
    With no file attached there is no upload and no insert into
    [evidence]. *)
Theorem C4_create_evidence_rows env id session data w user_id :
  present (session_user_id session) = Some user_id →
  present id = None →
  all_writes_ok (submitted env id session data w) = true →
  ∃ newReport,
    List.filter is_report_insert (submitted env id session data w)
    = [EInsertSingle "reports" (reportData data user_id) (inr newReport)]
    ∧ List.filter is_upload_begin (submitted env id session data w)
      = map (λ file, EUploadBegin "evidence"
                       (ReportRow.id newReport +:+ "/" +:+ File.name file) file)
          (attached data)
    ∧ length (rows_inserted "evidence" (submitted env id session data w))
      = length (attached data)
    ∧ (∀ i file, attached data !! i = Some file →
         ∃ row, rows_inserted "evidence" (submitted env id session data w) !! i = Some row
           ∧ row !! "file_url"
             = Some (JStr (getPublicUrl env "evidence"
                             (ReportRow.id newReport +:+ "/" +:+ File.name file)))
           ∧ row !! "file_type" = Some (JStr (File.type file))
           ∧ row !! "uploaded_by" = Some (JStr user_id)
           ∧ row !! "report_id" = Some (JStr (ReportRow.id newReport)))
    ∧ (attached data = [] →
         List.filter is_upload (submitted env id session data w) = []
         ∧ List.filter (inserts_into "evidence") (submitted env id session data w) = []).
Proof.
  intros Huser Hid Hok.
  destruct (create_success env id session data w user_id Huser Hid Hok)
    as (nr & evs1 & evs2 & -> & H1 & H2).
  exists nr. unfold report_inserted.
  assert (Hev1 : List.filter is_report_insert evs1 = []
                 ∧ List.filter is_upload_begin evs1 = []
                 ∧ rows_inserted "evidence" evs1 = []
                 ∧ List.filter is_upload evs1 = []
                 ∧ List.filter (inserts_into "evidence") evs1 = []).
  { inversion H1; subst; observe; done. }
  destruct Hev1 as (Hr1 & Hb1 & Hrows1 & Hu1 & Hins1).
  assert (Hev2 : List.filter is_report_insert evs2 = []
                 ∧ List.filter is_upload_begin evs2
                   = map (upload_begin nr) (attached data)
                 ∧ rows_inserted "evidence" evs2 = evidence_rows env nr user_id data
                 ∧ (attached data = [] →
                    List.filter is_upload evs2 = []
                    ∧ List.filter (inserts_into "evidence") evs2 = [])).
  { inversion H2 as [Hnil|settled Hne Hperm| |]; subst; observe.
    - unfold evidence_rows. rewrite Hnil. done.
    - done. }
  destruct Hev2 as (Hr2 & Hb2 & Hrows2 & Hnone2).
  observe. rewrite Hr1, Hr2, Hb1, Hb2, Hrows1, Hrows2, Hu1, Hins1. observe.
  rewrite !Nat.add_0_r.
  split; [done|]. split; [done|]. unfold evidence_rows. rewrite length_map.
  split; [done|]. split; [|done].
  intros i file Hfile. exists (evidence_row env nr user_id file). split.
  - change (map ?f ?l) with (f <$> l). by rewrite list_lookup_fmap, Hfile.
  - destruct (evidence_row_lookup env nr user_id file) as (Hid' & Hurl & Hty & Hby).
    by repeat split.
Qed.

Lemma C4_create_evidence_witness :
  ∃ newReport,
    List.filter is_report_insert
      (submitted env_ok None sample_user sample_data (sample_world env_ok))
    = [EInsertSingle "reports" (reportData sample_data "u1") (inr newReport)]
    ∧ List.filter is_upload_begin
        (submitted env_ok None sample_user sample_data (sample_world env_ok))
      = map (λ file, EUploadBegin "evidence"
                       (ReportRow.id newReport +:+ "/" +:+ File.name file) file)
          sample_files
    ∧ length (rows_inserted "evidence"
                (submitted env_ok None sample_user sample_data (sample_world env_ok)))
      = 2%nat.
Proof.
  destruct (C4_create_evidence_rows env_ok None sample_user sample_data
              (sample_world env_ok) "u1") as (nr & H1 & H2 & H3 & _);
    [reflexivity..|].
  exists nr. exact (conj H1 (conj H2 H3)).
Defined.

(** C7.  On the create path, when no write is answered with an error, the
    events of a submission come in this order: the insert into [reports],
    answered with the new row; then the insert of the category assignments,
    if any category was chosen; then the start of every upload, in the order
    of the files; then the answers of all these uploads, in whatever order
    they arrive; then, if files were attached, the one insert into
    [evidence]; then the success toast and, last, the navigation to
    [/dashboard]. *)
Theorem C7_create_order env id session data w user_id :
  present (session_user_id session) = Some user_id →
  present id = None →
  all_writes_ok (submitted env id session data w) = true →
  ∃ newReport settled,
    submitted env id session data w
    = [ConsoleLog "Submitting form data:"; ConsoleLog "Creating new report";
       EInsertSingle "reports" (reportData data user_id) (inr newReport)]
      ++ match ReportFormSchema.categories data with
         | [] => []
         | _ => [EInsert "report_category_assignments"
                   (map (assignment_row newReport data) (ReportFormSchema.categories data))
                   None]
         end
      ++ map (upload_begin newReport) (attached data)
      ++ map (end_ok newReport) settled
      ++ match attached data with
         | [] => []
         | _ => [EInsert "evidence"
                   (map (evidence_row env newReport user_id) (attached data)) None]
         end
      ++ [EToast toast_created; ENavigate "/dashboard"]
    ∧ settled ≡ₚ indexed (attached data).
Proof.
  intros Huser Hid Hok.
  destruct (create_success env id session data w user_id Huser Hid Hok)
    as (nr & evs1 & evs2 & -> & H1 & H2).
  assert (Hev1 : evs1 = match ReportFormSchema.categories data with
                        | [] => []
                        | _ => [EInsert "report_category_assignments"
                                  (assignment_rows nr data) None]
                        end).
  { inversion H1 as [Hnil|Hne|]; subst.
    - by rewrite Hnil.
    - by destruct (ReportFormSchema.categories data). }
  assert (Hev2 : ∃ settled, settled ≡ₚ indexed (attached data)
            ∧ evs2 = map (upload_begin nr) (attached data)
                     ++ map (end_ok nr) settled
                     ++ match attached data with
                        | [] => []
                        | _ => [EInsert "evidence" (evidence_rows env nr user_id data) None]
                        end).
  { inversion H2 as [Hnil|settled Hne Hperm| |]; subst.
    - exists []. by rewrite Hnil.
    - exists settled. split; [done|]. by destruct (attached data). }
  destruct Hev2 as (settled & Hperm & ->). rewrite Hev1.
  exists nr, settled. split; [|done].
  unfold report_inserted, assignment_rows, evidence_rows. simpl.
  by rewrite <- !app_assoc.
Qed.

Lemma C7_create_order_witness :
  ∃ newReport settled,
    submitted env_ok None sample_user sample_data (sample_world env_ok)
    = [ConsoleLog "Submitting form data:"; ConsoleLog "Creating new report";
       EInsertSingle "reports" (reportData sample_data "u1") (inr newReport)]
      ++ [EInsert "report_category_assignments"
            (map (assignment_row newReport sample_data) ["s1"; "s2"; "s3"]) None]
      ++ map (upload_begin newReport) sample_files
      ++ map (end_ok newReport) settled
      ++ [EInsert "evidence" (map (evidence_row env_ok newReport "u1") sample_files) None]
      ++ [EToast toast_created; ENavigate "/dashboard"]
    ∧ settled ≡ₚ indexed sample_files.
Proof.
  apply (C7_create_order env_ok None sample_user sample_data (sample_world env_ok) "u1");
    reflexivity.
Defined.

(** C6.  Whenever a write of a submission is answered with an error (the
    insert into [reports], the insert of the category assignments, an upload,
    the insert into [evidence], or the update procedure), [onSubmit] leaves
    the form's values as they were, shows the one toast "Something went
    wrong. Please try again." and does not navigate.  Nothing is sent after
    the failed write: what was written before it stays, and after it come
    only two diagnostic lines and the toast. *)
Theorem C6_write_failure env id session data w :
  all_writes_ok (submitted env id session data w) = false →
  form (onSubmit env id session data w).2 = form w
  ∧ toasts (submitted env id session data w) = [toast_went_wrong]
  ∧ Toast.description toast_went_wrong = "Something went wrong. Please try again."
  ∧ List.filter is_navigate (submitted env id session data w) = []
  ∧ ∃ pre bad msg,
      submitted env id session data w
      = pre ++ [bad; ConsoleError msg; ConsoleError "Form submission error:";
                EToast toast_went_wrong]
      ∧ all_writes_ok pre = true
      ∧ write_failed bad = true.
Proof.
  intros Hfail.
  destruct (onSubmit_submitted env id session data w) as [Hrun Hshape].
  destruct (submit_failed _ _ _ _ _ Hshape Hfail)
    as (pre & bad & msg & Hevs & Hpre & Hbad & Ht & Hn).
  split; [by rewrite Hrun|]. rewrite Hevs.
  split; [|split; [done|split]].
  - destruct bad; try discriminate Hbad; observe; by rewrite Ht.
  - destruct bad; try discriminate Hbad; observe; by rewrite Hn.
  - by exists pre, bad, msg.
Qed.

Lemma C6_write_failure_witness :
  form (onSubmit env_evidence_rejected None sample_user sample_data
          (sample_world env_evidence_rejected)).2
  = defaultValues env_evidence_rejected
  ∧ toasts (submitted env_evidence_rejected None sample_user sample_data
              (sample_world env_evidence_rejected))
    = [toast_went_wrong]
  ∧ List.filter is_navigate
      (submitted env_evidence_rejected None sample_user sample_data
         (sample_world env_evidence_rejected))
    = [].
Proof.
  destruct (C6_write_failure env_evidence_rejected None sample_user sample_data
              (sample_world env_evidence_rejected)) as (Hform & Htoast & _ & Hnav & _);
    [reflexivity|].
  exact (conj Hform (conj Htoast Hnav)).
Defined.

(** C10.  Every category-assignment record [onSubmit] writes, whether as a
    row inserted on the create path or as an entry of the category list of
    the update procedure, and whether or not the submission succeeds, has
    [is_primary] false and carries the form's [main_category_id]; the
    operations of the report service write no assignment record at all. *)
Theorem C10_assignments_never_primary env id session data w :
  Forall (λ record,
            record !! "is_primary" = Some (JBool false)
            ∧ record !! "main_category_id"
              = Some (JStr (ReportFormSchema.main_category_id data)))
    (flat_map assignment_records (submitted env id session data w))
  ∧ (∀ reportData w', flat_map assignment_records
                        (events_of (createReport env reportData) w') = [])
  ∧ (∀ rid reportData w', flat_map assignment_records
                            (events_of (updateReport env rid reportData) w') = [])
  ∧ (∀ evidenceData w', flat_map assignment_records
                          (events_of (saveEvidence env evidenceData) w') = []).
Proof.
  split; [|split; [|split]].
  - destruct (onSubmit_submitted env id session data w) as [_ Hshape].
    assert (Hrpc : ∀ rid u, Forall (λ record,
              record !! "is_primary" = Some (JBool false)
              ∧ record !! "main_category_id"
                = Some (JStr (ReportFormSchema.main_category_id data)))
              (RpcArgs.p_categories (rpc_args rid u data))).
    { intros rid u. simpl. apply Forall_map, Forall_forall. intros c _.
      destruct (rpc_category_lookup data c) as (_ & Hm & Hp). done. }
    assert (Hrow : ∀ nr c,
              assignment_row nr data c !! "is_primary" = Some (JBool false)
              ∧ assignment_row nr data c !! "main_category_id"
                = Some (JStr (ReportFormSchema.main_category_id data))).
    { intros nr c. destruct (assignment_row_lookup nr data c) as (_ & _ & Hm & Hp). done. }
    inversion Hshape as [Hn|u r Hu Hr|u r e Hu Hr|u evs Hu Hr Hc Heq|u e evs Hu Hr Hc Heq].
    + done.
    + simpl. rewrite app_nil_r. apply (Hrpc r u).
    + simpl. rewrite app_nil_r. apply (Hrpc r u).
    + simpl. rewrite flat_map_app. simpl. rewrite app_nil_r.
      by eapply create_assignment_records.
    + simpl. rewrite flat_map_app. simpl. rewrite app_nil_r.
      by eapply create_assignment_records.
  - intros rd w'. unfold events_of, createReport, supabase_insert_single.
    unfold mbind, M_bind, history, emit, mret, M_ret, throw. simpl.
    destruct (insert_single env _ _ _); simpl; by rewrite drop_app_length.
  - intros rid rd w'. unfold events_of, updateReport, supabase_update_single.
    unfold mbind, M_bind, history, emit, mret, M_ret, throw. simpl.
    destruct (update_single env _ _ _ _); simpl; by rewrite drop_app_length.
  - intros ev w'. unfold events_of, saveEvidence, supabase_insert.
    unfold mbind, M_bind, history, emit, mret, M_ret, throw. simpl.
    destruct (insert_error env _ _ _); simpl; by rewrite drop_app_length.
Qed.

(** * The claim about loading *)

(** What [onSettled] does when it is called with a fetched record: it
    resets the form to [reset_values].  Nothing in the hook calls it. *)
Lemma onSettled_resets env record w :
  onSettled env (Some record) w
  = (Returned tt,
     {| form := reset_values env record;
        trace := trace w ++ [ConsoleLog "Setting form data:"] |}).
Proof. reflexivity. Qed.

(** C1.  Loading an existing report does not populate the form.  When the
    route has an identifier and the backend holds a report under it,
    loading fetches the record, logs it and returns, and the form keeps
    every value it had: the only code that resets the form from the record
    is [onSettled], which is never run. *)
Theorem C1_load_leaves_form env id rid record w :
  present id = Some rid →
  select_single env (trace w ++ [ConsoleLog "Fetching report data for ID:"]) "reports" rid
  = inr record →
  load env id w
  = (Returned tt,
     extend w [ConsoleLog "Fetching report data for ID:";
               ESelectSingle "reports" rid (inr record);
               ConsoleLog "Fetched report data:"])
  ∧ form (load env id w).2 = form w.
Proof.
  intros Hid Hsel.
  assert (Hrun : load env id w
    = (Returned tt,
       extend w [ConsoleLog "Fetching report data for ID:";
                 ESelectSingle "reports" rid (inr record);
                 ConsoleLog "Fetched report data:"])).
  { unfold load, queryFn. rewrite Hid.
    unfold console_log, supabase_select_single.
    unfold mbind, M_bind, history, emit, mret, M_ret, extend. simpl. rewrite Hsel. simpl.
    by rewrite <- !app_assoc. }
  by rewrite Hrun.
Qed.

(** The stored report [sample_fetched] has a title and two assignments; after
    loading it the form still has the empty title and no category. *)
Lemma C1_load_leaves_form_witness :
  Fetched.title sample_fetched = Some "Broken lamp"
  ∧ form (load env_found (Some "r7") (sample_world env_found)).2
    = defaultValues env_found
  ∧ FormValues.title (defaultValues env_found) = ""
  ∧ FormValues.categories (defaultValues env_found) = [].
Proof.
  destruct (C1_load_leaves_form env_found (Some "r7") "r7" sample_fetched
              (sample_world env_found)) as [_ Hform]; [reflexivity..|].
  split; [reflexivity|]. split; [exact Hform|]. split; reflexivity.
Defined.

(** * The claim about the report service *)

Lemma create_report_row env user_id data out evs :
  create_shape env user_id data out evs →
  report_rows_inserted evs = [reportData data user_id].
Proof.
  assert (H1 : ∀ nr o evs1, assignments_shape nr data o evs1 →
                 report_rows_inserted evs1 = []).
  { intros nr o evs1 H. by inversion H. }
  assert (H2 : ∀ nr o evs2, evidence_shape env nr user_id data o evs2 →
                 report_rows_inserted evs2 = []).
  { intros nr o evs2 H. unfold report_rows_inserted.
    inversion H; subst; try done;
      rewrite !flat_map_app, !flat_map_map_nil by done; done. }
  intros Hshape. unfold report_rows_inserted in *.
  inversion Hshape as [e|nr e evs1 Ha|nr e evs1 evs2 Ha He|nr evs1 evs2 Ha He]; subst;
    unfold report_inserted; rewrite ?flat_map_app; simpl.
  - done.
  - by rewrite (H1 _ _ _ Ha).
  - by rewrite (H1 _ _ _ Ha), (H2 _ _ _ He).
  - by rewrite (H1 _ _ _ Ha), (H2 _ _ _ He).
Qed.

(** C8, as the code has it.  On the create path the controller sends one
    single-row insert to [reports], as [createReport] does for the
    corresponding [ReportData]; the two rows have the same title,
    description, incident date, incident time, location and user, and the
    same category value, but the controller's row carries it as
    [main_category_id] and has no [category_id], while the service's row
    carries it as [category_id] and has no [main_category_id]. *)
Theorem C8_create_row_up_to_category_key env id session data w user_id w' :
  present (session_user_id session) = Some user_id →
  present id = None →
  ∃ row row',
    report_rows_inserted (submitted env id session data w) = [row]
    ∧ report_rows_inserted
        (events_of (createReport env (ReportData_of_form data user_id)) w') = [row']
    ∧ delete "main_category_id" row = delete "category_id" row'
    ∧ row !! "main_category_id" = Some (JStr (ReportFormSchema.main_category_id data))
    ∧ row' !! "category_id" = Some (JStr (ReportFormSchema.main_category_id data))
    ∧ row !! "category_id" = None
    ∧ row' !! "main_category_id" = None.
Proof.
  intros Huser Hid.
  exists (reportData data user_id), (ReportData_obj (ReportData_of_form data user_id)).
  split; [|split].
  - destruct (onSubmit_submitted env id session data w) as [_ Hshape].
    inversion Hshape as [Hn|u r Hu Hr|u r e Hu Hr|u evs Hu Hr Hc Heq|u e evs Hu Hr Hc Heq];
      try congruence.
    + assert (u = user_id) as -> by congruence.
      change (report_rows_inserted ([ConsoleLog "Submitting form data:"] ++ evs
                                    ++ [ENavigate "/dashboard"])
              = [reportData data user_id]).
      unfold report_rows_inserted. rewrite !flat_map_app.
      fold (report_rows_inserted evs). rewrite (create_report_row _ _ _ _ _ Hc). done.
    + assert (u = user_id) as -> by congruence.
      change (report_rows_inserted ([ConsoleLog "Submitting form data:"] ++ evs
                ++ [ConsoleError "Form submission error:"; EToast toast_went_wrong])
              = [reportData data user_id]).
      unfold report_rows_inserted. rewrite !flat_map_app.
      fold (report_rows_inserted evs). rewrite (create_report_row _ _ _ _ _ Hc). done.
  - unfold events_of, createReport, supabase_insert_single.
    unfold mbind, M_bind, history, emit, mret, M_ret, throw. simpl.
    destruct (insert_single env _ _ _); simpl; by rewrite drop_app_length.
  - unfold reportData, ReportData_obj, ReportData_of_form, obj. simpl.
    repeat split; by simplify_map_eq.
Qed.

Lemma C8_create_row_witness :
  ∃ row row',
    report_rows_inserted
      (submitted env_ok None sample_user sample_data (sample_world env_ok)) = [row]
    ∧ report_rows_inserted
        (events_of (createReport env_ok (ReportData_of_form sample_data "u1"))
           (sample_world env_ok)) = [row']
    ∧ delete "main_category_id" row = delete "category_id" row'
    ∧ row !! "main_category_id" = Some (JStr "m1")
    ∧ row' !! "category_id" = Some (JStr "m1")
    ∧ row !! "category_id" = None
    ∧ row' !! "main_category_id" = None.
Proof.
  apply (C8_create_row_up_to_category_key env_ok None sample_user sample_data
           (sample_world env_ok) "u1" (sample_world env_ok)); reflexivity.
Defined.

(** C8 as stated fails: the row the controller inserts for the sample form
    is not the row [createReport] inserts for the corresponding
    [ReportData]. *)
Lemma C8_rows_differ :
  report_rows_inserted
    (submitted env_ok None sample_user sample_data (sample_world env_ok))
  ≠ report_rows_inserted
      (events_of (createReport env_ok (ReportData_of_form sample_data "u1"))
         (sample_world env_ok)).
Proof.
  intros Heq.
  apply (f_equal (λ rows, (λ row : gmap string JsVal, row !! "category_id") <$> rows))
    in Heq.
  vm_compute in Heq. discriminate Heq.
Qed.

(** * The claim about the list view *)

Lemma report_item_badges Date_parse format_PPP report node :
  report_item Date_parse format_PPP report = Some node →
  badges node = [(badge_variant (Report.status report), [Text (Report.status report)])].
Proof.
  unfold report_item. destruct (date_line Date_parse format_PPP report); [|done].
  simpl. intros [= <-]. by destruct (Report.case_categories report).
Qed.

Lemma report_items_badges Date_parse format_PPP reports items :
  mapM (report_item Date_parse format_PPP) reports = Some items →
  flat_map badges items
  = map (λ report, (badge_variant (Report.status report),
                    [Text (Report.status report)])) reports.
Proof.
  intros Hitems. apply mapM_Some in Hitems.
  induction Hitems as [|report node reports' items' Hitem _ IH]; [done|].
  simpl. by rewrite (report_item_badges _ _ _ _ Hitem), IH.
Qed.

(** C9.  The badge variant is [success] for the status [resolved],
    [warning] for [in_progress] and [default] for every other status; the
    list view of no reports is the single paragraph "No reports found";
    the view of a non-empty list, whenever it renders, shows for each
    report, in order, one badge of that variant labelled with the status,
    and it renders as soon as every date line can be formatted. *)
Theorem C9_badges_and_placeholder Date_parse format_PPP :
  badge_variant "resolved" = "success"
  ∧ badge_variant "in_progress" = "warning"
  ∧ (∀ status, status ≠ "resolved" → status ≠ "in_progress" →
       badge_variant status = "default")
  ∧ ReportsList Date_parse format_PPP []
    = Some (Elem "p" None "text-center text-muted-foreground py-8" None
              [Text "No reports found"])
  ∧ (∀ reports tree, ReportsList Date_parse format_PPP reports = Some tree →
       reports ≠ [] →
       badges tree
       = map (λ report, (badge_variant (Report.status report),
                         [Text (Report.status report)])) reports)
  ∧ (∀ reports, Forall (λ report, is_Some (date_line Date_parse format_PPP report)) reports →
       is_Some (ReportsList Date_parse format_PPP reports)).
Proof.
  split; [done|]. split; [done|]. split; [|split; [done|split]].
  - intros status H1 H2. unfold badge_variant.
    destruct (String.eqb_spec status "resolved"); [done|].
    by destruct (String.eqb_spec status "in_progress").
  - intros reports tree Hrender Hne. unfold ReportsList in Hrender.
    destruct reports as [|r reports]; [done|].
    change (length (r :: reports) =? 0)%nat with false in Hrender. cbv iota in Hrender.
    destruct (mapM (report_item Date_parse format_PPP) (r :: reports)) as [items|] eqn:Hitems;
      [|discriminate Hrender].
    injection Hrender as <-.
    by apply (report_items_badges Date_parse format_PPP).
  - intros reports Hdates. unfold ReportsList.
    destruct (length reports =? 0)%nat; [done|].
    assert (Hitems : is_Some (mapM (report_item Date_parse format_PPP) reports)).
    { apply mapM_is_Some. eapply Forall_impl; [exact Hdates|].
      intros report [date Hdate]. unfold report_item. simpl. by rewrite Hdate. }
    destruct Hitems as [items ->]. done.
Qed.

Lemma C9_badges_witness :
  ∃ tree, ReportsList (Date_parse env_ok) sample_format_PPP sample_reports = Some tree
    ∧ badges tree = [ ("success", [Text "resolved"]);
                      ("warning", [Text "in_progress"]);
                      ("default", [Text "pending"]) ].
Proof.
  destruct (C9_badges_and_placeholder (Date_parse env_ok) sample_format_PPP)
    as (_ & _ & _ & _ & Hbadges & Hrenders).
  destruct (Hrenders sample_reports) as [tree Htree].
  { repeat constructor; vm_compute; eauto. }
  exists tree. split; [exact Htree|].
  apply (Hbadges sample_reports tree Htree). discriminate.
Defined.

(** * Checks on concrete inputs *)

Example iso_date_epoch : iso_date 0 = "1970-01-01".
Proof. reflexivity. Qed.

Example toISOString_2023 : toISOString 1700000000123 = "2023-11-14T22:13:20.123Z".
Proof. reflexivity. Qed.

Example toISOString_before_epoch : toISOString (-1) = "1969-12-31T23:59:59.999Z".
Proof. reflexivity. Qed.

Example iso_date_leap_day : iso_date 951782400000 = "2000-02-29".
Proof. reflexivity. Qed.

Example toISOString_year_zero : toISOString (-62167219200000) = "0000-01-01T00:00:00.000Z".
Proof. reflexivity. Qed.

Example toISOString_before_year_zero :
  toISOString (-62198755200000) = "-000001-01-01T00:00:00.000Z".
Proof. reflexivity. Qed.

Example iso_date_year_10000 : iso_date 253402300800000 = "+010000-01-01".
Proof. reflexivity. Qed.

Example reportData_sample :
  reportData sample_data "u1"
  = obj [ ("title", JStr "Broken lamp");
          ("description", JStr "The lamp in the hall is broken");
          ("incident_date", JStr "2023-11-14");
          ("incident_time", JStr "22:13");
          ("location", JStr "Hall");
          ("main_category_id", JStr "m1");
          ("user_id", JStr "u1") ].
Proof. reflexivity. Qed.

(** The uploads may settle out of order ([b.pdf] before [a.png] here); the
    evidence rows still come in the order of the files, and a rejected
    insert into [evidence] leaves the report, its categories and the
    uploaded files behind. *)
Example rejected_evidence_writes :
  List.filter is_write
    (submitted env_evidence_rejected None sample_user sample_data
       (sample_world env_evidence_rejected))
  = [ EInsertSingle "reports" (reportData sample_data "u1")
        (inr {| ReportRow.id := "r1" |});
      EInsert "report_category_assignments"
        (map (assignment_row {| ReportRow.id := "r1" |} sample_data) ["s1"; "s2"; "s3"])
        None;
      EUploadBegin "evidence" "r1/a.png" {| File.name := "a.png"; File.type := "image/png" |};
      EUploadBegin "evidence" "r1/b.pdf"
        {| File.name := "b.pdf"; File.type := "application/pdf" |};
      EUploadEnd "evidence" "r1/b.pdf" None;
      EUploadEnd "evidence" "r1/a.png" None;
      EInsert "evidence"
        (map (evidence_row env_evidence_rejected {| ReportRow.id := "r1" |} "u1") sample_files)
        (Some "permission denied") ].
Proof. reflexivity. Qed.

Example update_sample_events :
  submitted env_ok (Some "r7") sample_user sample_data (sample_world env_ok)
  = [ ConsoleLog "Submitting form data:"; ConsoleLog "Updating report:";
      ERpc "update_report_with_categories" (rpc_args "r7" "u1" sample_data) None;
      EToast toast_updated; ENavigate "/dashboard" ].
Proof. reflexivity. Qed.

(** An empty route identifier or an empty user identifier is falsy. *)
Example empty_id_creates :
  List.filter is_report_insert
    (submitted env_ok (Some "") sample_user sample_data (sample_world env_ok))
  = [ EInsertSingle "reports" (reportData sample_data "u1")
        (inr {| ReportRow.id := "r1" |}) ].
Proof. reflexivity. Qed.

Example empty_user_id_rejected :
  submitted env_ok None (Some {| Session.user := Some {| User.id := "" |} |})
    sample_data (sample_world env_ok)
  = [ EToast toast_not_logged_in ].
Proof. reflexivity. Qed.
(** * Further properties of [onSubmit] *)

#[local] Arguments reportData : simpl never.
#[local] Arguments rpc_args : simpl never.
#[local] Arguments assignment_rows : simpl never.
#[local] Arguments evidence_rows : simpl never.
#[local] Arguments upload_fileName : simpl never.

Lemma existsb_map_none {A} (p : Event → bool) (f : A → Event) (l : list A) :
  (∀ x, p (f x) = false) → existsb p (map f l) = false.
Proof. intros H. induction l as [|x l IH]; [done|]. simpl. by rewrite H, IH. Qed.

(** Rewriting any observation through the events of a submission. *)
Ltac observe_all :=
  repeat first
    [ rewrite List.filter_app | rewrite rows_inserted_app | rewrite toasts_app
    | rewrite all_writes_ok_app | rewrite existsb_app
    | rewrite last_snoc | rewrite last_cons | rewrite last_app
    | rewrite (filter_map_none _ (upload_begin _)) by done
    | rewrite (filter_map_none _ (end_ok _)) by done
    | rewrite (filter_map_all _ (upload_begin _)) by done
    | rewrite (filter_map_all _ (end_ok _)) by done
    | rewrite (existsb_map_none _ (upload_begin _)) by done
    | rewrite (existsb_map_none _ (end_ok _)) by done
    | rewrite (rows_inserted_map_none _ (upload_begin _)) by done
    | rewrite (rows_inserted_map_none _ (end_ok _)) by done
    | rewrite (toasts_map_none (upload_begin _)) by done
    | rewrite (toasts_map_none (end_ok _)) by done
    | rewrite (all_writes_ok_map (upload_begin _)) by done
    | rewrite (all_writes_ok_map (end_ok _)) by done
    | rewrite length_app | rewrite length_map | rewrite app_nil_r
    | progress simpl ].

(** Taking the shapes of a submission apart, down to explicit events. *)
Ltac shape_cases :=
  repeat match goal with
    | H : submit_shape _ _ _ _ _ |- _ => inversion H; clear H; subst
    | H : create_shape _ _ _ _ _ |- _ => inversion H; clear H; subst
    | H : assignments_shape _ _ _ _ |- _ => inversion H; clear H; subst
    | H : evidence_shape _ _ _ _ _ _ |- _ => inversion H; clear H; subst
    end;
  unfold report_inserted in *.

(** The events of a call of [onSubmit] as a variable with its shape. *)
Ltac submitted_as evs Hshape :=
  match goal with
  | |- context [submitted ?env ?id ?session ?data ?w] =>
      let Hrun := fresh "Hrun" in
      destruct (onSubmit_submitted env id session data w) as [Hrun Hshape];
      clear Hrun; revert Hshape;
      generalize (submitted env id session data w); intros evs Hshape
  end.

(** X1.  [onSubmit] never throws: whatever the session, the form data and
    the answers of the backend, it returns, the form keeps its values and
    the trace only grows. *)
Theorem onSubmit_always_returns env id session data w :
  (onSubmit env id session data w).1 = Returned tt
  ∧ form (onSubmit env id session data w).2 = form w
  ∧ trace (onSubmit env id session data w).2
    = trace w ++ submitted env id session data w.
Proof.
  destruct (onSubmit_submitted env id session data w) as [Hrun _].
  by rewrite Hrun.
Qed.

(** X2.  Every submission shows exactly one toast: the authentication error
    without a user; otherwise the success toast of its path ("updated" when
    editing, "created" when not) if no write failed, and the generic error
    if one did. *)
Theorem onSubmit_one_toast env id session data w :
  toasts (submitted env id session data w)
  = [ match present (session_user_id session) with
      | None => toast_not_logged_in
      | Some _ =>
          if all_writes_ok (submitted env id session data w)
          then (if isEditing id then toast_updated else toast_created)
          else toast_went_wrong
      end ].
Proof.
  submitted_as evs Hshape. unfold isEditing.
  shape_cases;
    repeat match goal with H : present _ = _ |- _ => rewrite H; clear H end;
    observe_all; done.
Qed.

(** X3.  [onSubmit] navigates exactly when there is a user and no write
    failed; it then navigates once, to [/dashboard], as its last step. *)
Theorem onSubmit_navigates_iff_success env id session data w :
  List.filter is_navigate (submitted env id session data w)
  = (if bool_decide (is_Some (present (session_user_id session)))
        && all_writes_ok (submitted env id session data w)
     then [ENavigate "/dashboard"] else [])
  ∧ (List.filter is_navigate (submitted env id session data w) ≠ [] →
     last (submitted env id session data w) = Some (ENavigate "/dashboard")).
Proof.
  submitted_as evs Hshape.
  shape_cases;
    repeat match goal with H : present _ = _ |- _ => rewrite H; clear H end;
    observe_all; done.
Qed.

(** X4.  When not editing, a submission of a logged-in user never calls the
    update procedure; its first write is the insert of [reportData] into
    [reports], and no other insert into [reports] follows, whatever the
    outcome. *)
Theorem create_path_one_report_insert env id session data w user_id :
  present (session_user_id session) = Some user_id →
  isEditing id = false →
  List.filter is_rpc (submitted env id session data w) = []
  ∧ ∃ result rest,
      List.filter is_write (submitted env id session data w)
      = EInsertSingle "reports" (reportData data user_id) result :: rest
      ∧ List.filter is_report_insert rest = [].
Proof.
  intros Huser Hid. unfold isEditing in Hid.
  destruct (present id) eqn:Hpid; [done|]. clear Hid.
  submitted_as evs Hshape.
  shape_cases; try congruence;
    match goal with H : present (session_user_id _) = Some ?u |- _ =>
      assert (u = user_id) as -> by congruence end;
    (split; [by observe_all|]); eexists _, _; (split; [by observe_all|]);
    observe_all; done.
Qed.

(** X5.  When the insert into [reports] is answered with an error, it is the
    only write of the submission: no category, upload or evidence is
    attempted. *)
Theorem report_insert_failure_stops env id session data w :
  existsb report_insert_failed (submitted env id session data w) = true →
  ∃ user_id e,
    present (session_user_id session) = Some user_id
    ∧ List.filter is_write (submitted env id session data w)
      = [EInsertSingle "reports" (reportData data user_id) (inl e)].
Proof.
  submitted_as evs Hshape. intros Hfail.
  shape_cases; revert Hfail; observe_all; try done;
    intros _; eexists _, _; by split.
Qed.

(** X6.  When the insert of the category assignments is answered with an
    error, the report row has been created and stays; no upload and no
    evidence insert follows. *)
Theorem assignment_failure_orphans_report env id session data w :
  existsb (insert_failed "report_category_assignments")
    (submitted env id session data w) = true →
  ∃ user_id newReport e,
    present (session_user_id session) = Some user_id
    ∧ List.filter is_write (submitted env id session data w)
      = [EInsertSingle "reports" (reportData data user_id) (inr newReport);
         EInsert "report_category_assignments"
           (map (assignment_row newReport data) (ReportFormSchema.categories data))
           (Some e)].
Proof.
  submitted_as evs Hshape. intros Hfail.
  shape_cases; revert Hfail; observe_all; try done;
    intros _; eexists _, _, _; by split.
Qed.

(** X7.  When an upload is answered with an error, every attached file has
    had its upload started, but no evidence row is inserted, not even for
    the files whose upload succeeded. *)
Theorem upload_failure_no_evidence env id session data w :
  existsb upload_failed (submitted env id session data w) = true →
  ∃ newReport,
    List.filter is_upload_begin (submitted env id session data w)
    = map (upload_begin newReport) (attached data)
    ∧ attached data ≠ []
    ∧ List.filter (inserts_into "evidence") (submitted env id session data w) = []
    ∧ rows_inserted "evidence" (submitted env id session data w) = [].
Proof.
  submitted_as evs Hshape. intros Hfail.
  shape_cases; revert Hfail; observe_all; try done;
    intros _; eexists; repeat split; try done.
Qed.

(** X8.  A submission never reads or updates a row directly; it calls the
    update procedure at most once, inserts into [reports] at most once,
    sends bulk inserts only to [report_category_assignments] and [evidence],
    at most one each and in that order, and starts at most one upload per
    attached file. *)
Theorem onSubmit_request_bounds env id session data w :
  List.filter is_select_or_update (submitted env id session data w) = []
  ∧ (length (List.filter is_rpc (submitted env id session data w)) ≤ 1)%nat
  ∧ (length (List.filter is_report_insert (submitted env id session data w)) ≤ 1)%nat
  ∧ sublist (bulk_insert_tables (submitted env id session data w))
      ["report_category_assignments"; "evidence"]
  ∧ (length (List.filter is_upload_begin (submitted env id session data w))
     ≤ length (attached data))%nat.
Proof.
  split; [|split; [|split; [|split]]].
  - submitted_as evs Hshape. shape_cases; observe_all; done.
  - submitted_as evs Hshape. shape_cases; observe_all; lia.
  - submitted_as evs Hshape. shape_cases; observe_all; lia.
  - submitted_as evs Hshape. unfold bulk_insert_tables.
    shape_cases; simpl; rewrite ?flat_map_app, ?flat_map_map_nil by done; simpl;
      repeat constructor.
  - submitted_as evs Hshape. shape_cases; observe_all; lia.
Qed.

(** X9.  Submitting the same new report twice in a row inserts it twice:
    nothing ties the second submission to the row the first created. *)
Theorem submit_twice_two_reports env id session data w user_id :
  present (session_user_id session) = Some user_id →
  isEditing id = false →
  ∃ result1 result2,
    List.filter is_report_insert
      (events_of (onSubmit env id session data ;; onSubmit env id session data) w)
    = [EInsertSingle "reports" (reportData data user_id) result1;
       EInsertSingle "reports" (reportData data user_id) result2].
Proof.
  intros Huser Hid. unfold isEditing in Hid.
  destruct (present id) eqn:Hpid; [done|]. clear Hid.
  assert (Hone : ∀ w', ∃ result,
            List.filter is_report_insert (submitted env id session data w')
            = [EInsertSingle "reports" (reportData data user_id) result]).
  { intros w'. submitted_as evs Hshape.
    shape_cases; try congruence;
      match goal with H : present (session_user_id _) = Some ?u |- _ =>
        assert (u = user_id) as -> by congruence end;
      eexists; observe_all; done. }
  destruct (onSubmit_submitted env id session data w) as [Hrun1 _].
  destruct (onSubmit_submitted env id session data
              (extend w (submitted env id session data w))) as [Hrun2 _].
  destruct (Hone w) as [r1 H1].
  destruct (Hone (extend w (submitted env id session data w))) as [r2 H2].
  exists r1, r2. unfold events_of.
  rewrite (bind_returned _ _ _ _ _ Hrun1), Hrun2, extend_extend. simpl.
  by rewrite drop_app_length, List.filter_app, H1, H2.
Qed.

(** * Further properties of loading *)

(** X10.  Without a route identifier (or with an empty one) the hook is not
    editing: [queryFn] returns null and loading does nothing, it sends no
    request and leaves the form alone. *)
Theorem load_without_id env id w :
  isEditing id = false →
  queryFn env id w = (Returned None, w) ∧ load env id w = (Returned tt, w).
Proof.
  unfold isEditing, queryFn, load. by destruct (present id).
Qed.


(** * Further properties of the report service *)

Lemma ReportData_obj_keys reportData :
  dom (ReportData_obj reportData)
  = ({["title"; "description"; "category_id"; "incident_date"; "incident_time";
       "location"; "user_id"]} : gset string)
  ∧ ReportData_obj reportData !! "incident_date"
    = Some (nullable (ReportData.incident_date reportData))
  ∧ ReportData_obj reportData !! "incident_time"
    = Some (nullable (ReportData.incident_time reportData))
  ∧ ReportData_obj reportData !! "location"
    = Some (nullable (ReportData.location reportData)).
Proof.
  unfold ReportData_obj, obj. simpl. split; [|repeat split; by simplify_map_eq].
  rewrite !dom_insert_L, dom_empty_L. apply set_eq. intros k.
  rewrite !elem_of_union, !elem_of_singleton, elem_of_empty. tauto.
Qed.

(** X14.  [createReport] and [updateReport] each send one request with the
    [ReportData] object as it is, throw the backend's error unchanged and
    otherwise return the backend's row; the object always has the seven
    properties of [ReportData], a missing date, time or location being sent
    as null. *)
Theorem service_row_operations env reportData rid w :
  (∃ result,
     createReport env reportData w
     = (match result with inl e => Thrown e | inr row => Returned row end,
        extend w [EInsertSingle "reports" (ReportData_obj reportData) result]))
  ∧ (∃ result,
       updateReport env rid reportData w
       = (match result with inl e => Thrown e | inr row => Returned row end,
          extend w [EUpdateSingle "reports" (ReportData_obj reportData) rid result]))
  ∧ dom (ReportData_obj reportData)
    = ({["title"; "description"; "category_id"; "incident_date"; "incident_time";
         "location"; "user_id"]} : gset string)
  ∧ (ReportData.incident_date reportData = None →
     ReportData_obj reportData !! "incident_date" = Some JNull)
  ∧ (ReportData.incident_time reportData = None →
     ReportData_obj reportData !! "incident_time" = Some JNull)
  ∧ (ReportData.location reportData = None →
     ReportData_obj reportData !! "location" = Some JNull).
Proof.
  destruct (ReportData_obj_keys reportData) as (Hdom & Hd & Ht & Hl).
  split; [|split; [|split; [done|]]].
  - exists (insert_single env (trace w) "reports" (ReportData_obj reportData)).
    unfold createReport, supabase_insert_single.
    unfold mbind, M_bind, history, emit, mret, M_ret, throw, extend. simpl.
    by destruct (insert_single env _ _ _).
  - exists (update_single env (trace w) "reports" (ReportData_obj reportData) rid).
    unfold updateReport, supabase_update_single.
    unfold mbind, M_bind, history, emit, mret, M_ret, throw, extend. simpl.
    by destruct (update_single env _ _ _ _).
  - rewrite Hd, Ht, Hl. repeat split; by intros ->.
Qed.

Lemma evidence_obj_lookup evidence :
  evidence_obj evidence !! "file_url" = Some (JStr (EvidenceData.file_url evidence))
  ∧ evidence_obj evidence !! "file_type" = Some (JStr (EvidenceData.file_type evidence))
  ∧ evidence_obj evidence !! "description" = JStr <$> EvidenceData.description evidence
  ∧ evidence_obj evidence !! "report_id" = Some (JStr (EvidenceData.report_id evidence))
  ∧ evidence_obj evidence !! "uploaded_by" = Some (JStr (EvidenceData.uploaded_by evidence))
  ∧ dom (evidence_obj evidence)
    ⊆ ({["file_url"; "file_type"; "description"; "report_id"; "uploaded_by"]} : gset string).
Proof.
  unfold evidence_obj, obj.
  destruct (EvidenceData.description evidence); simpl;
    (repeat split; [by simplify_map_eq..|]);
    rewrite !dom_insert_L, dom_empty_L; intros k;
    rewrite !elem_of_union, !elem_of_singleton, elem_of_empty; tauto.
Qed.

(** X15.  [saveEvidence] sends one bulk insert into [evidence], also for an
    empty list, with one row per record, in order; a row has the record's
    URL, type, report and uploader, its description only when the record has
    one, and no other property; the backend's error is thrown unchanged. *)
Theorem saveEvidence_rows env evidenceData w :
  ∃ rows error,
    saveEvidence env evidenceData w
    = (match error with Some e => Thrown e | None => Returned tt end,
       extend w [EInsert "evidence" rows error])
    ∧ length rows = length evidenceData
    ∧ ∀ i evidence, evidenceData !! i = Some evidence →
        ∃ row, rows !! i = Some row
          ∧ row !! "file_url" = Some (JStr (EvidenceData.file_url evidence))
          ∧ row !! "file_type" = Some (JStr (EvidenceData.file_type evidence))
          ∧ row !! "description" = JStr <$> EvidenceData.description evidence
          ∧ row !! "report_id" = Some (JStr (EvidenceData.report_id evidence))
          ∧ row !! "uploaded_by" = Some (JStr (EvidenceData.uploaded_by evidence))
          ∧ dom row
            ⊆ ({["file_url"; "file_type"; "description"; "report_id"; "uploaded_by"]}
               : gset string).
Proof.
  exists (map evidence_obj evidenceData),
         (insert_error env (trace w) "evidence" (map evidence_obj evidenceData)).
  split; [|split].
  - unfold saveEvidence, supabase_insert.
    unfold mbind, M_bind, history, emit, mret, M_ret, throw, extend. simpl.
    by destruct (insert_error env _ _ _).
  - by rewrite length_map.
  - intros i evidence Hi. exists (evidence_obj evidence). split.
    + change (map ?f ?l) with (f <$> l). by rewrite list_lookup_fmap, Hi.
    + apply evidence_obj_lookup.
Qed.


(** * The incident date sent to the backend *)

Lemma string_app_cons a (s1 s2 : string) : String a s1 +:+ s2 = String a (s1 +:+ s2).
Proof. reflexivity. Qed.

Lemma string_app_assoc (s1 s2 s3 : string) : (s1 +:+ s2) +:+ s3 = s1 +:+ (s2 +:+ s3).
Proof.
  induction s1 as [|a s1 IH]; [done|]. rewrite !string_app_cons. by rewrite IH.
Qed.

Lemma string_length_app (s1 s2 : string) :
  String.length (s1 +:+ s2) = (String.length s1 + String.length s2)%nat.
Proof.
  induction s1 as [|a s1 IH]; [done|]. rewrite string_app_cons. simpl. by rewrite IH.
Qed.

Lemma lacks_app c (s1 s2 : string) : lacks c (s1 +:+ s2) = lacks c s1 && lacks c s2.
Proof.
  induction s1 as [|a s1 IH]; [done|]. rewrite string_app_cons. simpl.
  rewrite IH. by rewrite andb_assoc.
Qed.

Lemma split_head_app c (s1 s2 : string) :
  lacks c s1 = true → split_head c (s1 +:+ String c s2) = s1.
Proof.
  induction s1 as [|a s1 IH].
  - intros _. change ("" +:+ String c s2) with (String c s2). simpl.
    by rewrite Ascii.eqb_refl.
  - rewrite string_app_cons. simpl.
    intros [Ha Hrest]%andb_true_iff. apply negb_true_iff in Ha. rewrite Ha.
    by rewrite IH.
Qed.

Lemma pad_digits_length n : ∀ z, String.length (pad_digits n z) = n.
Proof.
  induction n as [|n IH]; intros z; [done|].
  simpl. rewrite string_length_app, IH. simpl. lia.
Qed.

Lemma digit_not_T (k : nat) :
  (k < 10)%nat → lacks "T" (String (ascii_of_nat (48 + k)) "") = true.
Proof.
  intros Hk. do 10 (destruct k as [|k]; [reflexivity|]). lia.
Qed.

Lemma pad_digits_lacks_T n : ∀ z, lacks "T" (pad_digits n z) = true.
Proof.
  induction n as [|n IH]; intros z; [done|].
  change (pad_digits (S n) z)
    with (pad_digits n (z / 10)
          +:+ String (ascii_of_nat (48 + Z.to_nat (z `mod` 10))) "").
  rewrite lacks_app, IH, digit_not_T; [done|].
  pose proof (Z.mod_pos_bound z 10). lia.
Qed.

Lemma iso_year_lacks_T y : lacks "T" (iso_year y) = true.
Proof.
  unfold iso_year. destruct ((0 <=? y) && (y <=? 9999)).
  - apply pad_digits_lacks_T.
  - rewrite lacks_app, pad_digits_lacks_T. by destruct (y <? 0).
Qed.

(** The date part of the ISO string of a day. *)
Lemma iso_date_of_day ms :
  iso_date ms
  = let '(y, m, d) := civil_from_days (ms / msPerDay) in
    iso_year y +:+ "-" +:+ pad_digits 2 m +:+ "-" +:+ pad_digits 2 d.
Proof.
  unfold iso_date, toISOString.
  destruct (civil_from_days (ms / msPerDay)) as [[y m] d].
  set (time := pad_digits 2 (ms `mod` msPerDay / 3600000) +:+ _).
  change ("T" +:+ time) with (String "T" time).
  rewrite <- !(string_app_assoc _ _ (String "T" time)).
  apply split_head_app.
  rewrite !lacks_app, iso_year_lacks_T, !pad_digits_lacks_T. done.
Qed.

Lemma civil_ranges days :
  1 <= (civil_from_days days).1.2 <= 12 ∧ 1 <= (civil_from_days days).2 <= 31.
Proof.
  unfold civil_from_days.
  set (doe := (days + 719468) `mod` 146097).
  assert (Hdoe : 0 <= doe < 146097) by (apply Z.mod_pos_bound; lia).
  clearbody doe.
  set (yoe := (doe - doe / 1460 + doe / 36524 - doe / 146096) / 365).
  set (doy := doe - (365 * yoe + yoe / 4 - yoe / 100)).
  assert (Hdoy : 0 <= doy <= 365).
  { unfold doy, yoe. Z.div_mod_to_equations; lia. }
  clearbody doy.
  set (mp := (5 * doy + 2) / 153).
  assert (Hmp : 0 <= mp <= 11) by (unfold mp; Z.div_mod_to_equations; lia).
  assert (Hd : 1 <= doy - (153 * mp + 2) / 5 + 1 <= 31).
  { unfold mp. Z.div_mod_to_equations; lia. }
  simpl.
  destruct (mp <? 10) eqn:E; [apply Z.ltb_lt in E|apply Z.ltb_ge in E]; split; lia.
Qed.

Lemma civil_year_range days :
  0 <= days < 2932897 → 1970 <= (civil_from_days days).1.1 <= 9999.
Proof.
  intros Hd. unfold civil_from_days.
  set (z := days + 719468).
  set (era := z / 146097).
  set (doe := z `mod` 146097).
  assert (Hz : z = 146097 * era + doe) by (unfold era, doe; apply Z.div_mod; lia).
  assert (Hdoe : 0 <= doe < 146097) by (apply Z.mod_pos_bound; lia).
  assert (Hzr : 719468 <= z < 3652365) by (unfold z; lia).
  clearbody era doe z.
  set (yoe := (doe - doe / 1460 + doe / 36524 - doe / 146096) / 365).
  set (doy := doe - (365 * yoe + yoe / 4 - yoe / 100)).
  set (mp := (5 * doy + 2) / 153).
  simpl.
  destruct (mp <? 10) eqn:E; [apply Z.ltb_lt in E|apply Z.ltb_ge in E].
  - destruct (mp + 3 <=? 2) eqn:E2; [apply Z.leb_le in E2|apply Z.leb_gt in E2];
      unfold mp, doy, yoe in *; Z.div_mod_to_equations; lia.
  - destruct (mp - 9 <=? 2) eqn:E2; [apply Z.leb_le in E2|apply Z.leb_gt in E2];
      unfold mp, doy, yoe in *; Z.div_mod_to_equations; lia.
Qed.

(** X17.  The [incident_date] of [reportData] depends only on the UTC day of
    the form's date: two instants of the same UTC day give the same value,
    the time of day is cut off. *)
Theorem incident_date_same_day data1 data2 user_id :
  ReportFormSchema.incident_date data1 / msPerDay
  = ReportFormSchema.incident_date data2 / msPerDay →
  reportData data1 user_id !! "incident_date" = reportData data2 user_id !! "incident_date".
Proof.
  intros Hday.
  assert (Hget : ∀ data, reportData data user_id !! "incident_date"
                         = Some (JStr (iso_date (ReportFormSchema.incident_date data)))).
  { intros data. unfold reportData, obj. simpl. by simplify_map_eq. }
  by rewrite !Hget, !iso_date_of_day, Hday.
Qed.

(** X18.  For a date from 1970 up to the end of the year 9999, the
    [incident_date] of [reportData] is a ten-character [YYYY-MM-DD] string
    with a month from 01 to 12 and a day from 01 to 31. *)
Theorem incident_date_format data user_id :
  0 <= ReportFormSchema.incident_date data < 253402300800000 →
  ∃ y m d,
    1970 <= y <= 9999 ∧ 1 <= m <= 12 ∧ 1 <= d <= 31
    ∧ reportData data user_id !! "incident_date"
      = Some (JStr (pad_digits 4 y +:+ "-" +:+ pad_digits 2 m +:+ "-" +:+ pad_digits 2 d))
    ∧ String.length
        (pad_digits 4 y +:+ "-" +:+ pad_digits 2 m +:+ "-" +:+ pad_digits 2 d) = 10%nat.
Proof.
  intros Hms. set (ms := ReportFormSchema.incident_date data) in *.
  assert (Hdays : 0 <= ms / msPerDay < 2932897).
  { unfold msPerDay. Z.div_mod_to_equations; lia. }
  pose proof (civil_year_range _ Hdays) as Hy.
  pose proof (civil_ranges (ms / msPerDay)) as [Hm Hd].
  assert (Hget : reportData data user_id !! "incident_date" = Some (JStr (iso_date ms))).
  { unfold reportData, obj. simpl. by simplify_map_eq. }
  rewrite Hget, iso_date_of_day.
  destruct (civil_from_days (ms / msPerDay)) as [[y m] d]. simpl in Hy, Hm, Hd.
  exists y, m, d. split; [done|]. split; [done|]. split; [done|]. split.
  - unfold iso_year.
    assert ((0 <=? y) && (y <=? 9999) = true) as ->; [|done].
    apply andb_true_iff. split; apply Z.leb_le; lia.
  - rewrite !string_length_app, !pad_digits_length. done.
Qed.

(** * Storage paths *)

(** X19.  The storage paths of the files of one report are pairwise
    distinct exactly when the file names are: two attached files of the same
    name are uploaded to the same path. *)
Theorem upload_paths_distinct_iff_names newReport (files : list File.t) :
  NoDup (map (upload_fileName newReport) files) ↔ NoDup (map File.name files).
Proof.
  assert (Hmap : map (upload_fileName newReport) files
                 = (λ name, ReportRow.id newReport +:+ "/" +:+ name) <$> map File.name files).
  { change (map File.name files) with (File.name <$> files).
    rewrite <- list_fmap_compose. done. }
  rewrite Hmap. apply NoDup_fmap.
  intros n1 n2 Heq. by do 2 apply String.app_inj in Heq.
Qed.

(** * Further properties of the list view *)

Lemma report_item_targets Date_parse format_PPP report node :
  report_item Date_parse format_PPP report = Some node →
  click_targets node = ["/reports/" +:+ Report.id report]
  ∧ keys node = [Report.id report].
Proof.
  unfold report_item. destruct (date_line Date_parse format_PPP report); [|done].
  simpl. intros [= <-]. by destruct (Report.case_categories report).
Qed.

Lemma report_items_targets Date_parse format_PPP reports items :
  mapM (report_item Date_parse format_PPP) reports = Some items →
  flat_map click_targets items
  = map (λ report, "/reports/" +:+ Report.id report) reports
  ∧ flat_map keys items = map Report.id reports.
Proof.
  intros Hitems. apply mapM_Some in Hitems.
  induction Hitems as [|report node reports' items' Hitem _ [IHc IHk]]; [done|].
  destruct (report_item_targets _ _ _ _ Hitem) as [Hc Hk].
  simpl. by rewrite Hc, Hk, IHc, IHk.
Qed.

(** X20.  A rendered non-empty list has one item per report, in order: the
    item of a report has the report's identifier as key and its click
    handler navigates to [/reports/<id>]. *)
Theorem ReportsList_items Date_parse format_PPP reports tree :
  ReportsList Date_parse format_PPP reports = Some tree →
  reports ≠ [] →
  click_targets tree = map (λ report, "/reports/" +:+ Report.id report) reports
  ∧ keys tree = map Report.id reports.
Proof.
  intros Hrender Hne. unfold ReportsList in Hrender.
  destruct reports as [|r reports]; [done|].
  change (length (r :: reports) =? 0)%nat with false in Hrender. cbv iota in Hrender.
  destruct (mapM (report_item Date_parse format_PPP) (r :: reports)) as [items|] eqn:Hitems;
    [|discriminate Hrender].
  injection Hrender as <-.
  by apply (report_items_targets Date_parse format_PPP).
Qed.


(** * The further properties on the sample inputs *)

Lemma onSubmit_navigates_witness :
  last (submitted env_ok None sample_user sample_data (sample_world env_ok))
  = Some (ENavigate "/dashboard").
Proof.
  apply (onSubmit_navigates_iff_success env_ok None sample_user sample_data
           (sample_world env_ok)).
  discriminate.
Defined.

Lemma create_path_one_report_insert_witness :
  List.filter is_rpc
    (submitted env_evidence_rejected None sample_user sample_data
       (sample_world env_evidence_rejected)) = []
  ∧ ∃ result rest,
      List.filter is_write
        (submitted env_evidence_rejected None sample_user sample_data
           (sample_world env_evidence_rejected))
      = EInsertSingle "reports" (reportData sample_data "u1") result :: rest
      ∧ List.filter is_report_insert rest = [].
Proof.
  apply (create_path_one_report_insert env_evidence_rejected None sample_user sample_data
           (sample_world env_evidence_rejected) "u1"); reflexivity.
Defined.

Lemma report_insert_failure_witness :
  ∃ user_id e,
    present (session_user_id sample_user) = Some user_id
    ∧ List.filter is_write
        (submitted env_inserts_rejected None sample_user sample_data
           (sample_world env_inserts_rejected))
      = [EInsertSingle "reports" (reportData sample_data user_id) (inl e)].
Proof.
  apply (report_insert_failure_stops env_inserts_rejected None sample_user sample_data
           (sample_world env_inserts_rejected)).
  reflexivity.
Defined.

Lemma assignment_failure_witness :
  ∃ user_id newReport e,
    present (session_user_id sample_user) = Some user_id
    ∧ List.filter is_write
        (submitted env_bulk_rejected None sample_user sample_data
           (sample_world env_bulk_rejected))
      = [EInsertSingle "reports" (reportData sample_data user_id) (inr newReport);
         EInsert "report_category_assignments"
           (map (assignment_row newReport sample_data) ["s1"; "s2"; "s3"]) (Some e)].
Proof.
  apply (assignment_failure_orphans_report env_bulk_rejected None sample_user sample_data
           (sample_world env_bulk_rejected)).
  reflexivity.
Defined.

Lemma upload_failure_witness :
  ∃ newReport,
    List.filter is_upload_begin
      (submitted env_pdf_rejected None sample_user sample_data
         (sample_world env_pdf_rejected))
    = map (upload_begin newReport) sample_files
    ∧ sample_files ≠ []
    ∧ List.filter (inserts_into "evidence")
        (submitted env_pdf_rejected None sample_user sample_data
           (sample_world env_pdf_rejected)) = []
    ∧ rows_inserted "evidence"
        (submitted env_pdf_rejected None sample_user sample_data
           (sample_world env_pdf_rejected)) = [].
Proof.
  apply (upload_failure_no_evidence env_pdf_rejected None sample_user sample_data
           (sample_world env_pdf_rejected)).
  reflexivity.
Defined.

Lemma submit_twice_witness :
  ∃ result1 result2,
    List.filter is_report_insert
      (events_of (onSubmit env_evidence_rejected None sample_user sample_data ;;
                  onSubmit env_evidence_rejected None sample_user sample_data)
         (sample_world env_evidence_rejected))
    = [EInsertSingle "reports" (reportData sample_data "u1") result1;
       EInsertSingle "reports" (reportData sample_data "u1") result2].
Proof.
  apply (submit_twice_two_reports env_evidence_rejected None sample_user sample_data
           (sample_world env_evidence_rejected) "u1"); reflexivity.
Defined.

Lemma load_without_id_witness :
  queryFn env_found (Some "") (sample_world env_found)
  = (Returned None, sample_world env_found)
  ∧ load env_found (Some "") (sample_world env_found)
    = (Returned tt, sample_world env_found).
Proof.
  apply (load_without_id env_found (Some "") (sample_world env_found)). reflexivity.
Defined.


Lemma service_row_operations_witness :
  ReportData_obj sample_ReportData !! "incident_date" = Some JNull
  ∧ ReportData_obj sample_ReportData !! "incident_time" = Some JNull.
Proof.
  destruct (service_row_operations env_ok sample_ReportData "r7" (sample_world env_ok))
    as (_ & _ & _ & Hdate & Htime & _).
  split; [apply Hdate|apply Htime]; reflexivity.
Defined.

Lemma saveEvidence_rows_witness :
  ∃ rows error,
    saveEvidence env_ok sample_evidence (sample_world env_ok)
    = (match error with Some e => Thrown e | None => Returned tt end,
       extend (sample_world env_ok) [EInsert "evidence" rows error])
    ∧ length rows = 2%nat
    ∧ ∃ row, rows !! 1%nat = Some row
        ∧ row !! "file_url" = Some (JStr "https://example.test/b.pdf")
        ∧ row !! "description" = None.
Proof.
  destruct (saveEvidence_rows env_ok sample_evidence (sample_world env_ok))
    as (rows & error & Hrun & Hlen & Hrows).
  exists rows, error. split; [exact Hrun|]. split; [exact Hlen|].
  destruct (Hrows 1%nat _ eq_refl) as (row & Hrow & Hurl & _ & Hdesc & _).
  exists row. exact (conj Hrow (conj Hurl Hdesc)).
Defined.

Lemma incident_date_same_day_witness :
  reportData sample_data "u1" !! "incident_date"
  = reportData sample_data_morning "u1" !! "incident_date".
Proof.
  apply (incident_date_same_day sample_data sample_data_morning "u1"). reflexivity.
Defined.

Lemma incident_date_format_witness :
  ∃ y m d,
    1970 <= y <= 9999 ∧ 1 <= m <= 12 ∧ 1 <= d <= 31
    ∧ reportData sample_data "u1" !! "incident_date"
      = Some (JStr (pad_digits 4 y +:+ "-" +:+ pad_digits 2 m +:+ "-" +:+ pad_digits 2 d))
    ∧ String.length
        (pad_digits 4 y +:+ "-" +:+ pad_digits 2 m +:+ "-" +:+ pad_digits 2 d) = 10%nat.
Proof.
  apply (incident_date_format sample_data "u1"). simpl. lia.
Defined.

Lemma upload_paths_distinct_witness :
  NoDup (map (upload_fileName {| ReportRow.id := "r1" |}) sample_files).
Proof.
  apply (upload_paths_distinct_iff_names {| ReportRow.id := "r1" |} sample_files).
  simpl. apply NoDup_cons. split; [|apply NoDup_singleton].
  intros H%list_elem_of_singleton. discriminate H.
Defined.

Lemma ReportsList_items_witness :
  ∃ tree, ReportsList (Date_parse env_ok) sample_format_PPP sample_reports = Some tree
    ∧ click_targets tree = ["/reports/r1"; "/reports/r2"; "/reports/r3"]
    ∧ keys tree = ["r1"; "r2"; "r3"].
Proof.
  destruct (ReportsList (Date_parse env_ok) sample_format_PPP sample_reports)
    as [tree|] eqn:Htree; [|discriminate Htree].
  exists tree. split; [reflexivity|].
  apply (ReportsList_items (Date_parse env_ok) sample_format_PPP sample_reports tree Htree).
  discriminate.
Defined.

